(** * clanki: the AnkiConnect adapter of [src/index.ts]

    A shallow embedding of the request pipeline ([ankiRequest]), of the tool
    handlers (create-deck, create-card, update-card, create-cloze-card,
    update-cloze-card) and of the deck reader (the [ReadResourceRequestSchema]
    handler with its [cardInfo] projection), followed by the properties of the
    specification stated over them.

    Conventions of the embedding.
    - A JavaScript value is a [value]; what [JSON.parse] returns never holds
      [VUndefined].  Numbers are the integers (identifiers, counts, delays and
      status codes); fractional numbers are outside the model.  An integer
      stands for the double nearest to it, the integer itself up to 2^53, and
      is printed as the runtime prints that double ([string_of_Z]).
    - [await]ed code runs in the monad [M]: the state is the chronological
      [history] of what the process did to the outside world (HTTP requests
      sent, timers slept), the result is a value or a thrown exception.
    - The backend is any function from the history so far and the request to a
      [reply]; [JSON.parse] and [decodeURIComponent] are parameters.
    - Diagnostic output ([console.error]) is not modelled. *)

From Stdlib Require Import ZArith List String Ascii Bool Lia DecimalString.
From Equations Require Import Equations.
Import ListNotations.
Open Scope string_scope.
Open Scope list_scope.
Open Scope Z_scope.

(** String concatenation, the [+] and the template literals of the source. *)
Infix "+++" := String.append (right associativity, at level 60).

(** ** JavaScript values *)

#[local] Set Warnings "-register-all".

Inductive value : Type :=
| VUndefined
| VNull
| VBool (b : bool)
| VNum (n : Z)
| VStr (s : string)
| VArr (elems : list value)
| VObj (props : list (string * value)).

Inductive exn : Type :=
| Error (message : string)
| TypeError (message : string)
| URIError (message : string)
| ZodError (errors : list (list string * string)).

(** The outcome of running a piece of code.  [OffType] marks the one place
    where the runtime would compare a number with a payload that is not a
    number (see [js_lt]); the model stops there. *)
Inductive outcome (A : Type) : Type :=
| Ok (a : A)
| Throw (e : exn)
| OffType.
Arguments Ok {A} a.
Arguments Throw {A} e.
Arguments OffType {A}.

(** ** Numbers as the runtime prints them

    The runtime holds a number as a double and prints the shortest decimal
    numeral that reads back as that double ([Number::toString]); from 1e21 on
    it prints the numeral with an exponent, and beyond the largest double it
    prints "Infinity".  Up to 2^53 every integer is a double and is printed
    with all its digits. *)

(** The decimal digits of an integer. *)
Definition decimal (n : Z) : string := NilZero.string_of_int (Z.to_int n).

(** The double that a positive integer is read as: the nearest integer with
    a significand of 53 bits, the even one out of two that are as near. *)
Definition nearest_double (m : Z) : Z :=
  let sh := Z.log2 m - 52 in
  if sh <=? 0 then m
  else
    let q := Z.shiftr m sh in
    let r := m - Z.shiftl q sh in
    let half := Z.shiftl 1 (sh - 1) in
    Z.shiftl (if (half <? r) || ((r =? half) && Z.odd q) then q + 1 else q) sh.

(** The numeral with the fewest significant digits that reads back as the
    double [x]: the multiples of [10 ^ e] on both sides of [x] are tried,
    from the power of ten of its leading digit downwards; when both read
    back as [x] the nearer one is taken, the even one when they are as near. *)
Fixpoint shortest (fuel : nat) (x e : Z) : Z :=
  match fuel with
  | O => x
  | S fuel' =>
      let p := 10 ^ e in
      let lo := x / p * p in
      let hi := lo + p in
      let below := nearest_double lo =? x in
      let above := nearest_double hi =? x in
      if below && above then
        if (x - lo <? hi - x) || ((x - lo =? hi - x) && Z.even (x / p))
        then lo else hi
      else if below then lo
      else if above then hi
      else shortest fuel' x (e - 1)
  end.

(** A numeral without its trailing zeros. *)
Fixpoint significant (s : string) : string :=
  match s with
  | EmptyString => EmptyString
  | String c rest =>
      match significant rest with
      | EmptyString =>
          if Ascii.eqb c "0" then EmptyString else String c EmptyString
      | t => String c t
      end
  end.

(** The numeral [digits] with an exponent: [d.ddde+N], or [de+N] when only
    one digit is significant. *)
Definition exponential (digits : string) : string :=
  match significant digits with
  | EmptyString => digits
  | String c EmptyString =>
      String c EmptyString +++ "e+"
        +++ decimal (Z.of_nat (String.length digits) - 1)
  | String c rest =>
      String c EmptyString +++ "." +++ rest +++ "e+"
        +++ decimal (Z.of_nat (String.length digits) - 1)
  end.

(** [String(n)], also [`${n}`], of the number that the integer [n] is read
    as. *)
Definition string_of_Z (n : Z) : string :=
  if n =? 0 then "0"
  else
    let x := nearest_double (Z.abs n) in
    (if n <? 0 then "-" else "")
    +++ (if 2 ^ 1024 <=? x then "Infinity"
         else
           let len := String.length (decimal x) in
           let v := shortest len x (Z.of_nat len - 1) in
           if v <? 10 ^ 21 then decimal v else exponential (decimal v)).

Fixpoint lookup (k : string) (props : list (string * value)) : value :=
  match props with
  | [] => VUndefined
  | (k', v) :: rest => if String.eqb k k' then v else lookup k rest
  end.

Definition has_key (k : string) (props : list (string * value)) : bool :=
  existsb (fun kv => String.eqb k (fst kv)) props.

(** [typeof]-like name of a value, as the runtime prints it in messages. *)
Definition type_name (v : value) : string :=
  match v with
  | VUndefined => "undefined"
  | VNull => "null"
  | VBool _ => "boolean"
  | VNum _ => "number"
  | VStr _ => "string"
  | VArr _ => "array"
  | VObj _ => "object"
  end.

(** [v.name] for the property names the adapter reads. *)
Definition get_prop (v : value) (name : string) : outcome value :=
  match v with
  | VUndefined | VNull =>
      Throw (TypeError ("Cannot read properties of " +++ type_name v
                        +++ " (reading '" +++ name +++ "')"))
  | VObj props => Ok (lookup name props)
  | VArr elems =>
      if String.eqb name "length" then Ok (VNum (Z.of_nat (List.length elems)))
      else Ok VUndefined
  | VStr s =>
      if String.eqb name "length" then Ok (VNum (Z.of_nat (String.length s)))
      else Ok VUndefined
  | VBool _ | VNum _ => Ok VUndefined
  end.

(** [v[i]] for a literal index [i]. *)
Definition get_index (v : value) (i : nat) : outcome value :=
  match v with
  | VUndefined | VNull =>
      Throw (TypeError ("Cannot read properties of " +++ type_name v
                        +++ " (reading '" +++ string_of_Z (Z.of_nat i) +++ "')"))
  | VArr elems => Ok (nth i elems VUndefined)
  | VStr s =>
      match String.get i s with
      | Some c => Ok (VStr (String c EmptyString))
      | None => Ok VUndefined
      end
  | VObj props => Ok (lookup (string_of_Z (Z.of_nat i)) props)
  | VBool _ | VNum _ => Ok VUndefined
  end.

(** Truthiness, as [if (v)] and [v || w] test it. *)
Definition truthy (v : value) : bool :=
  match v with
  | VUndefined | VNull => false
  | VBool b => b
  | VNum n => negb (n =? 0)
  | VStr s => negb (String.eqb s "")
  | VArr _ | VObj _ => true
  end.

(** [v === null || v === undefined]. *)
Definition nullish (v : value) : bool :=
  match v with
  | VUndefined | VNull => true
  | _ => false
  end.

(** [v === n] and [v === s] for a number or string literal. *)
Definition is_num (v : value) (n : Z) : bool :=
  match v with VNum m => m =? n | _ => false end.

Definition is_str (v : value) (s : string) : bool :=
  match v with VStr t => String.eqb t s | _ => false end.

(** String conversion of a template literal, [`${v}`]; inside an array
    [null] and [undefined] print as the empty string. *)
Fixpoint to_string (v : value) : string :=
  match v with
  | VUndefined => "undefined"
  | VNull => "null"
  | VBool true => "true"
  | VBool false => "false"
  | VNum n => string_of_Z n
  | VStr s => s
  | VArr elems =>
      String.concat ","
        (map (fun e => if nullish e then "" else to_string e) elems)
  | VObj _ => "[object Object]"
  end.

(** [arr.join(sep)] on the elements of an array. *)
Definition join (sep : string) (elems : list value) : string :=
  String.concat sep (map (fun e => if nullish e then "" else to_string e) elems).

(** [s.includes(needle)]. *)
Definition includes (needle s : string) : bool :=
  match String.index 0 needle s with
  | Some _ => true
  | None => false
  end.

(** ** The outside world *)

(** The JSON body [{action, version: 6, params}] that [ankiRequest] posts. *)
Record request : Type := mkRequest {
  action : string;
  version : Z;
  params : value
}.

(** What comes back for one POST: the [error] event of the request object,
    or a complete response with its status code and body text. *)
Inductive reply : Type :=
| ConnError (message : string)
| Http (statusCode : Z) (responseData : string).

Inductive event : Type :=
| EvRequest (r : request)
| EvSleep (ms : Z).

Definition history : Type := list event.

(** ** The monad of awaited code *)

Definition M (A : Type) : Type := history -> outcome A * history.

Definition ret {A} (a : A) : M A := fun h => (Ok a, h).

Definition throw {A} (e : exn) : M A := fun h => (Throw e, h).

Definition lift {A} (o : outcome A) : M A := fun h => (o, h).

Definition bind {A B} (m : M A) (k : A -> M B) : M B :=
  fun h =>
    match m h with
    | (Ok a, h') => k a h'
    | (Throw e, h') => (Throw e, h')
    | (OffType, h') => (OffType, h')
    end.

(** [try { m } catch (error) { handler error }]. *)
Definition try_catch {A} (m : M A) (handler : exn -> M A) : M A :=
  fun h =>
    match m h with
    | (Throw e, h') => handler e h'
    | r => r
    end.

Declare Scope js_scope.
Delimit Scope js_scope with js.
Notation "x <- m ;; k" := (bind m (fun x => k))
  (at level 100, m at next level, right associativity) : js_scope.
Notation "m ;;; k" := (bind m (fun _ => k))
  (at level 100, right associativity) : js_scope.
Open Scope js_scope.

(** [await new Promise((resolve) => setTimeout(resolve, ms))]. *)
Definition sleep (ms : Z) : M unit := fun h => (Ok tt, h ++ [EvSleep ms]).

(** What a history says was done. *)
Definition requests (h : history) : list request :=
  flat_map (fun ev => match ev with EvRequest r => [r] | EvSleep _ => [] end) h.

Definition sleeps (h : history) : list Z :=
  flat_map (fun ev => match ev with EvSleep ms => [ms] | EvRequest _ => [] end) h.

Definition requests_of (a : string) (h : history) : list request :=
  filter (fun r => String.eqb (action r) a) (requests h).

(** ** Argument validation: the Zod schemas, lines 30-63

    Modelled from Zod's documented behaviour: [parse] either returns the
    validated data or throws a [ZodError] that lists one issue (path and
    message) per offending place, in the order of the schema's keys.
    Unknown keys of the input are dropped. *)

Definition zres (A : Type) : Type := (list (list string * string) + A)%type.

Definition invalid_type {A} (expected : string) (path : list string)
    (v : value) : zres A :=
  inl [(path,
        match v with
        | VUndefined => "Required"
        | _ => "Expected " +++ expected +++ ", received " +++ type_name v
        end)].

(** [z.string()] *)
Definition z_string (path : list string) (v : value) : zres string :=
  match v with
  | VStr s => inr s
  | _ => invalid_type "string" path v
  end.

(** [z.string().min(1)] *)
Definition z_string_min1 (path : list string) (v : value) : zres string :=
  match v with
  | VStr s =>
      if String.eqb s "" then
        inl [(path, "String must contain at least 1 character(s)")]
      else inr s
  | _ => invalid_type "string" path v
  end.

(** [z.number()] *)
Definition z_number (path : list string) (v : value) : zres Z :=
  match v with
  | VNum n => inr n
  | _ => invalid_type "number" path v
  end.

(** [schema.optional()] *)
Definition z_optional {A} (schema : list string -> value -> zres A)
    (path : list string) (v : value) : zres (option A) :=
  match v with
  | VUndefined => inr None
  | _ => match schema path v with
         | inr a => inr (Some a)
         | inl errors => inl errors
         end
  end.

(** Two validations side by side: the issues of both are reported. *)
Definition z_and {A B} (a : zres A) (b : zres B) : zres (A * B) :=
  match a, b with
  | inr x, inr y => inr (x, y)
  | inl e, inr _ => inl e
  | inr _, inl e => inl e
  | inl e1, inl e2 => inl (e1 ++ e2)
  end.

Fixpoint z_elems {A} (schema : list string -> value -> zres A)
    (path : list string) (i : nat) (elems : list value) : zres (list A) :=
  match elems with
  | [] => inr []
  | e :: rest =>
      match z_and (schema (path ++ [string_of_Z (Z.of_nat i)]) e)
                  (z_elems schema path (S i) rest) with
      | inr (x, xs) => inr (x :: xs)
      | inl errors => inl errors
      end
  end.

(** [z.array(schema)] *)
Definition z_array {A} (schema : list string -> value -> zres A)
    (path : list string) (v : value) : zres (list A) :=
  match v with
  | VArr elems => z_elems schema path 0 elems
  | _ => invalid_type "array" path v
  end.

(** [z.object({...})]: [shape] validates the keys of the object. *)
Definition z_object {A} (shape : list (string * value) -> zres A)
    (v : value) : zres A :=
  match v with
  | VObj props => shape props
  | _ => invalid_type "object" [] v
  end.

Definition z_tags (props : list (string * value)) : zres (option (list string)) :=
  z_optional (z_array z_string) ["tags"] (lookup "tags" props).

Definition CreateDeckArgumentsSchema : value -> zres string :=
  z_object (fun props => z_string_min1 ["name"] (lookup "name" props)).

Definition CreateCardArgumentsSchema
  : value -> zres (string * string * string * option (list string)) :=
  z_object (fun props =>
    z_and (z_and (z_and (z_string ["deckName"] (lookup "deckName" props))
                        (z_string ["front"] (lookup "front" props)))
                 (z_string ["back"] (lookup "back" props)))
          (z_tags props)).

Definition CreateClozeCardArgumentsSchema
  : value -> zres (string * string * option string * option (list string)) :=
  z_object (fun props =>
    z_and (z_and (z_and (z_string ["deckName"] (lookup "deckName" props))
                        (z_string ["text"] (lookup "text" props)))
                 (z_optional z_string ["backExtra"] (lookup "backExtra" props)))
          (z_tags props)).

Definition UpdateCardArgumentsSchema
  : value -> zres (Z * option string * option string * option (list string)) :=
  z_object (fun props =>
    z_and (z_and (z_and (z_number ["cardId"] (lookup "cardId" props))
                        (z_optional z_string ["front"] (lookup "front" props)))
                 (z_optional z_string ["back"] (lookup "back" props)))
          (z_tags props)).

Definition UpdateClozeCardArgumentsSchema
  : value -> zres (Z * option string * option string * option (list string)) :=
  z_object (fun props =>
    z_and (z_and (z_and (z_number ["cardId"] (lookup "cardId" props))
                        (z_optional z_string ["text"] (lookup "text" props)))
                 (z_optional z_string ["backExtra"] (lookup "backExtra" props)))
          (z_tags props)).

(** [schema.parse(args)] *)
Definition parse {A} (r : zres A) : M A :=
  match r with
  | inr a => ret a
  | inl errors => throw (ZodError errors)
  end.

(** ** Small pieces of the handlers *)

Definition dq : string := String "034"%char EmptyString.
Definition nl : string := String "010"%char EmptyString.

(** [if (s)] on an optional string argument: absent and empty are falsy. *)
Definition given (s : option string) : bool :=
  match s with
  | Some t => negb (String.eqb t "")
  | None => false
  end.

(** The test of lines 439 and 496, negated:
    [text.includes("{{c") && text.includes("}}")]. *)
Definition has_cloze (text : string) : bool :=
  includes "{{c" text && includes "}}" text.

Definition cloze_error : exn :=
  Error "Text must contain at least one cloze deletion using {{c1::text}} syntax".

Definition not_cloze_error : exn :=
  Error "This card is not a cloze deletion card".

Definition strings (l : list string) : value := VArr (map VStr l).

Definition field (name : string) (s : string) : list (string * value) :=
  [(name, VStr s)].

Definition field_if (name : string) (s : option string) : list (string * value) :=
  match s with
  | Some t => if given s then [(name, VStr t)] else []
  | None => []
  end.

(** ** Small pieces of the deck reader *)

(** Sequencing inside an expression that may throw. *)
Definition and_then {A B} (o : outcome A) (k : A -> outcome B) : outcome B :=
  match o with
  | Ok a => k a
  | Throw e => Throw e
  | OffType => OffType
  end.

Notation "x <~ o ;; k" := (and_then o (fun x => k))
  (at level 100, o at next level, right associativity) : js_scope.

(** [arr.map(f)] for a callback that may throw. *)
Fixpoint map_outcome {A B} (f : A -> outcome B) (l : list A) : outcome (list B) :=
  match l with
  | [] => Ok []
  | a :: rest =>
      b <~ f a ;;
      bs <~ map_outcome f rest ;;
      Ok (b :: bs)
  end.

(** The line terminators that [.] of a regular expression does not match:
    LF, CR, U+2028 and U+2029 (the last two in their UTF-8 bytes). *)
Definition line_terminators : list string :=
  [String "010"%char EmptyString;
   String "013"%char EmptyString;
   String "226"%char (String "128"%char (String "168"%char EmptyString));
   String "226"%char (String "128"%char (String "169"%char EmptyString))].

(** [uri.match(/^anki:\/\/deck\/(.+)$/)]: the captured group, if any. *)
Definition match_deck_uri (uri : string) : option string :=
  let rest := substring 12 (String.length uri - 12) uri in
  if prefix "anki://deck/" uri
     && negb (String.eqb rest "")
     && negb (existsb (fun t => includes t rest) line_terminators)
  then Some rest
  else None.

(** [i < v] for a number [i]: with a number it is the comparison, with
    [undefined] it is false; for other operands the runtime converts [v] to
    a number first, which is not modelled. *)
Definition js_lt (i : Z) (v : value) : outcome bool :=
  match v with
  | VNum n => Ok (i <? n)
  | VUndefined => Ok false
  | _ => OffType
  end.

(** [noteIds.slice(i, j)] for [0 <= i <= j]. *)
Definition slice (v : value) (i j : Z) : outcome value :=
  match v with
  | VArr elems =>
      Ok (VArr (firstn (Z.to_nat (j - i)) (skipn (Z.to_nat i) elems)))
  | VStr s => Ok (VStr (substring (Z.to_nat i) (Z.to_nat (j - i)) s))
  | VUndefined | VNull =>
      Throw (TypeError ("Cannot read properties of " +++ type_name v
                        +++ " (reading 'slice')"))
  | _ => Throw (TypeError "noteIds.slice is not a function")
  end.

(** [allNotes.concat(v)]: an array is spread, anything else is appended. *)
Definition concat (allNotes : list value) (v : value) : list value :=
  match v with
  | VArr elems => allNotes ++ elems
  | _ => allNotes ++ [v]
  end.

(** Case analysis on a computed value that remembers what was computed. *)
Definition inspect {A} (a : A) : {b : A | a = b} := exist _ a eq_refl.

(** The upper bound of the chunk loop when [noteIds.length] is a number. *)
Definition bound (length : value) : Z :=
  match length with
  | VNum n => n
  | _ => 0
  end.

(** The presentation model, [interface AnkiCard] of lines 16-23 with
    [fields.Front.value] and [fields.Back.value] flattened. *)
Record AnkiCard : Type := mkCard {
  cardId : value;
  Front : value;
  Back : value;
  tags : value
}.

(** The callback of [allNotes.map] at lines 629-662.  The properties of the
    object literal are evaluated in the order they are written. *)
Definition cardInfo (note : value) : outcome AnkiCard :=
  modelName <~ get_prop note "modelName" ;;
  if is_str modelName "Cloze" then
    cards <~ get_prop note "cards" ;;
    id <~ get_index cards 0 ;;
    fields <~ get_prop note "fields" ;;
    Text <~ get_prop fields "Text" ;;
    front <~ get_prop Text "value" ;;
    fields' <~ get_prop note "fields" ;;
    BackExtra <~ get_prop fields' "Back Extra" ;;
    back <~ get_prop BackExtra "value" ;;
    t <~ get_prop note "tags" ;;
    Ok (mkCard id front (if truthy back then back else VStr "[Cloze deletion]") t)
  else if is_str modelName "Basic" then
    cards <~ get_prop note "cards" ;;
    id <~ get_index cards 0 ;;
    fields <~ get_prop note "fields" ;;
    F <~ get_prop fields "Front" ;;
    front <~ get_prop F "value" ;;
    fields' <~ get_prop note "fields" ;;
    B <~ get_prop fields' "Back" ;;
    back <~ get_prop B "value" ;;
    t <~ get_prop note "tags" ;;
    Ok (mkCard id front back t)
  else
    cards <~ get_prop note "cards" ;;
    id <~ get_index cards 0 ;;
    t <~ get_prop note "tags" ;;
    Ok (mkCard id (VStr "[Unknown note type]") (VStr "[Unknown note type]") t).

(** The callback of [cardInfo.map] at lines 667-673. *)
Definition render (card : AnkiCard) : outcome string :=
  joined <~ match tags card with
            | VArr elems => Ok (join ", " elems)
            | VUndefined | VNull =>
                Throw (TypeError ("Cannot read properties of "
                                  +++ type_name (tags card)
                                  +++ " (reading 'join')"))
            | _ => Throw (TypeError "card.tags.join is not a function")
            end ;;
  Ok ("Card ID: " +++ to_string (cardId card) +++ nl +++
      "Front: " +++ to_string (Front card) +++ nl +++
      "Back: " +++ to_string (Back card) +++ nl +++
      "Tags: " +++ joined +++ nl +++ "---").

(** [error.message]; the reader validates no arguments, so the text given
    for a [ZodError] is never asked for. *)
Definition message_of (error : exn) : string :=
  match error with
  | Error m | TypeError m | URIError m => m
  | ZodError errors =>
      String.concat ", "
        (map (fun e => String.concat "." (fst e) +++ ": " +++ snd e) errors)
  end.

(** ** The advertised tools: [ListToolsRequestSchema], lines 201-334 *)

(** One entry of [properties] of an [inputSchema]: its key, its [type], the
    [type] of its [items] for an array, and its [description]. *)
Record property : Type := mkProperty {
  prop_key : string;
  prop_type : string;
  prop_items : option string;
  prop_description : string
}.

Record tool : Type := mkTool {
  tool_name : string;
  tool_description : string;
  tool_properties : list property;
  tool_required : list string
}.

Definition tools : list tool :=
  [mkTool "create-deck" "Create a new Anki deck"
     [mkProperty "name" "string" None "Name for the new deck"]
     ["name"];
   mkTool "create-card" "Create a new flashcard in a specified deck"
     [mkProperty "deckName" "string" None "Name of the deck to add the card to";
      mkProperty "front" "string" None "Front side content of the card";
      mkProperty "back" "string" None "Back side content of the card";
      mkProperty "tags" "array" (Some "string") "Optional tags for the card"]
     ["deckName"; "front"; "back"];
   mkTool "update-card" "Update an existing flashcard"
     [mkProperty "cardId" "number" None "ID of the card to update";
      mkProperty "front" "string" None "New front side content";
      mkProperty "back" "string" None "New back side content";
      mkProperty "tags" "array" (Some "string") "New tags for the card"]
     ["cardId"];
   mkTool "create-cloze-card"
     "Create a new cloze deletion card in a specified deck. Use {{c1::text}} syntax for cloze deletions."
     [mkProperty "deckName" "string" None "Name of the deck to add the card to";
      mkProperty "text" "string" None
        "Text containing cloze deletions using {{c1::text}} syntax";
      mkProperty "backExtra" "string" None
        "Optional extra information to show on the back of the card";
      mkProperty "tags" "array" (Some "string") "Optional tags for the card"]
     ["deckName"; "text"];
   mkTool "update-cloze-card" "Update an existing cloze deletion card"
     [mkProperty "cardId" "number" None "ID of the card to update";
      mkProperty "text" "string" None
        "New text with cloze deletions using {{c1::text}} syntax";
      mkProperty "backExtra" "string" None
        "New extra information to show on the back of the card";
      mkProperty "tags" "array" (Some "string") "New tags for the card"]
     ["cardId"]].

(** One entry of [resources] in the answer to [ListResourcesRequestSchema]. *)
Record resource : Type := mkResource {
  res_uri : string;
  res_name : value;
  res_description : string
}.

(** ** A sample backend for the concrete runs *)

(** The JSON text of a value whose strings need no escaping. *)
Fixpoint json_text (v : value) : string :=
  match v with
  | VUndefined | VNull => "null"
  | VBool true => "true"
  | VBool false => "false"
  | VNum n => string_of_Z n
  | VStr s => dq +++ s +++ dq
  | VArr elems => "[" +++ String.concat "," (map json_text elems) +++ "]"
  | VObj props =>
      "{" +++ String.concat ","
                (map (fun kv => let '(k, x) := kv in
                                dq +++ k +++ dq +++ ":" +++ json_text x) props)
          +++ "}"
  end.

(** [JSON.parse] on the bodies of a table of values: the value whose text
    the body is. *)
Definition canned (table : list value) (body : string) : option value :=
  find (fun v => String.eqb (json_text v) body) table.

Definition success (result : value) : value :=
  VObj [("result", result); ("error", VNull)].

Definition failure (message : string) : value :=
  VObj [("result", VNull); ("error", VStr message)].

Definition sample_fields (modelName : string) : value :=
  if String.eqb modelName "Cloze" then
    VObj [("Text", VObj [("value", VStr "Capital of France: {{c1::Paris}}");
                         ("order", VNum 0)]);
          ("Back Extra", VObj [("value", VStr ""); ("order", VNum 1)])]
  else
    VObj [("Front", VObj [("value", VStr "Capital of France");
                          ("order", VNum 0)]);
          ("Back", VObj [("value", VStr "Paris"); ("order", VNum 1)])].

(** The note that [notesInfo] describes for an id. *)
Definition sample_note (modelName : string) (id : value) : value :=
  VObj [("noteId", id);
        ("modelName", VStr modelName);
        ("tags", VArr [VStr "geography"]);
        ("fields", sample_fields modelName);
        ("cards", VArr [id])].

Definition twelve : list value :=
  map VNum [101; 102; 103; 104; 105; 106; 107; 108; 109; 110; 111; 112].

(** A backend in working order whose notes all have the given model. *)
Definition anki (modelName : string) : history -> request -> reply :=
  fun _ r =>
    Http 200
      (json_text
         (if String.eqb (action r) "cardsToNotes" then success (VArr [VNum 7])
          else if String.eqb (action r) "notesInfo" then
            match lookup "notes" (match params r with
                                  | VObj ps => ps
                                  | _ => []
                                  end) with
            | VArr ids => success (VArr (map (sample_note modelName) ids))
            | _ => failure "notes must be a list"
            end
          else if String.eqb (action r) "findNotes" then success (VArr twelve)
          else if String.eqb (action r) "addNote" then success (VNum 1496198395707)
          else if String.eqb (action r) "updateNoteFields"
                  || String.eqb (action r) "replaceTags" then success VNull
          else failure "unsupported action")).



(** A backend that answers every request with no result and no error. *)
Definition silent : history -> request -> reply :=
  fun _ _ => Http 200 (json_text (success VNull)).

(** A backend that is not running. *)
Definition down : history -> request -> reply :=
  fun _ _ => ConnError "connect ECONNREFUSED 127.0.0.1:8765".

(** A backend that refuses the first two connections and then works. *)
Definition flaky : history -> request -> reply :=
  fun h r =>
    if (List.length (requests h) <? 2)%nat then
      ConnError "connect ECONNREFUSED 127.0.0.1:8765"
    else anki "Basic" h r.

(** A backend in working order that knows no card. *)
Definition cardless : history -> request -> reply :=
  fun _ _ => Http 200 (json_text (success (VArr []))).

(** A backend that updates fields and then fails on everything else. *)
Definition halfway : history -> request -> reply :=
  fun h r =>
    if String.eqb (action r) "replaceTags" then
      Http 200 (json_text (failure "unsupported action"))
    else anki "Basic" h r.

Definition sample_parse : string -> option value :=
  canned
    ([failure "deck name is not valid";
      failure "notes must be a list";
      failure "unsupported action";
      VObj [("result", VNum 7); ("error", VStr "")];
      success VNull;
      success (VNum 1496198395707);
      success (VArr [VNum 7]);
      success (VArr twelve);
      success (VArr [sample_note "Cloze" (VNum 7)]);
      success (VArr [sample_note "Basic" (VNum 7)])]
     ++ map (fun j => success (VArr (map (sample_note "Basic")
                                       (firstn 5 (skipn (5 * j) twelve)))))
          (seq 0 4)).

(** A backend with two decks. *)
Definition shelves : history -> request -> reply :=
  fun h r =>
    if String.eqb (action r) "deckNames" then
      Http 200 (json_text (success (strings ["Default"; "Geography"])))
    else anki "Basic" h r.

(** A backend that finds the note of a card and then cannot describe it. *)
Definition forgetful : history -> request -> reply :=
  fun h r =>
    if String.eqb (action r) "cardsToNotes" then anki "Cloze" h r
    else cardless h r.

(** A backend that answers every request with the body [null]. *)
Definition void : history -> request -> reply :=
  fun _ _ => Http 200 (json_text VNull).

Definition wider_parse (body : string) : option value :=
  match sample_parse body with
  | Some v => Some v
  | None =>
      canned [VNull;
              success (VArr []);
              success (strings ["Default"; "Geography"]);
              success (VArr [VNum 101]);
              success (VArr [VObj []])] body
  end.

(** A backend for a deck of three notes of which the first is intact, the
    second has vanished between findNotes and notesInfo (AnkiConnect then
    describes it as [{}]) and the third is a Cloze note without "Back
    Extra". *)
Definition thinned (id : value) : value :=
  if is_num id 102 then VObj []
  else if is_num id 103 then
    VObj [("noteId", id);
          ("modelName", VStr "Cloze");
          ("tags", VArr []);
          ("fields", VObj [("Text", VObj [("value", VStr "{{c1::Rome}}");
                                          ("order", VNum 0)])]);
          ("cards", VArr [id])]
  else sample_note "Basic" id.

Definition thinning : history -> request -> reply :=
  fun _ r =>
    Http 200
      (json_text
         (if String.eqb (action r) "findNotes" then
            success (VArr [VNum 101; VNum 102; VNum 103])
          else
            match lookup "notes" (match params r with
                                  | VObj ps => ps
                                  | _ => []
                                  end) with
            | VArr ids => success (VArr (map thinned ids))
            | _ => failure "notes must be a list"
            end)).

Definition thin_parse : string -> option value :=
  canned [success (VArr []);
          success (VArr [VNum 101; VNum 102; VNum 103]);
          success (VArr (map thinned [VNum 101; VNum 102; VNum 103]))].



Section Adapter.

(** [JSON.parse]: [None] when it throws a [SyntaxError]. *)
Variable JSON_parse : string -> option value.

(** [decodeURIComponent]: [None] when it throws a [URIError]. *)
Variable decodeURIComponent : string -> option string.

(** The AnkiConnect service behind [127.0.0.1:8765]. *)
Variable backend : history -> request -> reply.

(** [http.request(options, ...)], [req.write(data)], [req.end()]: one POST. *)
Definition post (r : request) : M reply :=
  fun h => (Ok (backend h r), h ++ [EvRequest r]).

(** ** The request pipeline: [ankiRequest], lines 66-183 *)

Definition parse_failure (responseData : string) : exn :=
  Error ("Failed to parse AnkiConnect response: " +++ responseData).

(** The body of the promise of one attempt: the [error] handler of the
    request (lines 155-161) and the [end] handler of the response (lines
    106-152).  An exception inside the inner [try] (a [SyntaxError] of
    [JSON.parse], a [TypeError] of reading a property of [null]) lands in its
    [catch] and rejects with the parse failure. *)
Definition settle (action : string) (r : reply) : outcome value :=
  match r with
  | ConnError message => Throw (Error message)
  | Http statusCode responseData =>
      if negb (statusCode =? 200) then
        Throw (Error ("AnkiConnect request failed with status "
                      +++ string_of_Z statusCode +++ ": " +++ responseData))
      else
        match JSON_parse responseData with
        | None => Throw (parse_failure responseData)
        | Some parsedData =>
            match get_prop parsedData "error" with
            | Ok error =>
                if truthy error then
                  Throw (Error ("AnkiConnect error: " +++ to_string error))
                else
                  match get_prop parsedData "result" with
                  | Ok result =>
                      if nullish result then
                        if String.eqb action "updateNoteFields"
                           || String.eqb action "replaceTags"
                        then Ok (VObj [])
                        else Throw (Error "AnkiConnect returned null/undefined result")
                      else Ok result
                  | _ => Throw (parse_failure responseData)
                  end
            | _ => Throw (parse_failure responseData)
            end
        end
  end.

(** The values [attempt] takes in [for (let attempt = 1; attempt <= retries;
    attempt++)]. *)
Definition attempts (retries : Z) : list Z :=
  map Z.of_nat (seq 1 (Z.to_nat retries)).

(** The [for] loop of lines 77-180 over the remaining values of [attempt],
    followed by the [throw] of line 182. *)
Fixpoint retry (action : string) (params : value) (retries : Z)
    (remaining : list Z) (delay : Z) : M value :=
  match remaining with
  | [] =>
      throw (Error ("Failed after " +++ string_of_Z retries +++ " attempts"))
  | attempt :: rest =>
      try_catch
        (r <- post (mkRequest action 6 params) ;; lift (settle action r))
        (fun error =>
           if attempt =? retries then throw error
           else sleep delay ;;; retry action params retries rest (delay * 2))
  end.

Definition ankiRequest (action : string) (params : value)
    (retries : Z) (delay : Z) : M value :=
  retry action params retries (attempts retries) delay.

(** The call with the default parameters [retries = 3, delay = 1000]. *)
Definition ankiRequest_ (action : string) (params : value) : M value :=
  ankiRequest action params 3 1000.

(** ** The tool handler: [CallToolRequestSchema], lines 337-544 *)

Definition when (b : bool) (m : M unit) : M unit :=
  if b then m else ret tt.

Definition create_deck (args : value) : M string :=
  deckName <- parse (CreateDeckArgumentsSchema args) ;;
  ankiRequest_ "createDeck" (VObj [("deck", VStr deckName)]) ;;;
  ret ("Successfully created new deck " +++ dq +++ deckName +++ dq).

Definition create_card (args : value) : M string :=
  a <- parse (CreateCardArgumentsSchema args) ;;
  let '(deckName, front, back, tags) := a in
  let tags := match tags with Some t => t | None => [] end in
  ankiRequest_ "addNote"
    (VObj [("note", VObj [("deckName", VStr deckName);
                          ("modelName", VStr "Basic");
                          ("fields", VObj [("Front", VStr front);
                                           ("Back", VStr back)]);
                          ("tags", strings tags)])]) ;;;
  ret ("Successfully created new card in deck " +++ dq +++ deckName +++ dq).

(** Lines 390-398 and 471-480: the note of a card. *)
Definition note_of_card (cardId : Z) : M value :=
  noteIdResponse <- ankiRequest_ "cardsToNotes"
                      (VObj [("cards", VArr [VNum cardId])]) ;;
  length <- lift (get_prop noteIdResponse "length") ;;
  if is_num length 0 then
    throw (Error ("No note found for card " +++ string_of_Z cardId))
  else lift (get_index noteIdResponse 0).

Definition updateNoteFields (noteId : value) (fields : list (string * value))
  : M unit :=
  ankiRequest_ "updateNoteFields"
    (VObj [("note", VObj [("id", noteId); ("fields", VObj fields)])]) ;;;
  ret tt.

(** Lines 413-418 and 515-521: [if (tags) { ... }]; an array is truthy even
    when it is empty. *)
Definition replaceTags (noteId : value) (tags : option (list string)) : M unit :=
  match tags with
  | Some t =>
      ankiRequest_ "replaceTags"
        (VObj [("notes", VArr [noteId]);
               ("tags", VStr (String.concat " " t))]) ;;;
      ret tt
  | None => ret tt
  end.

Definition update_card (args : value) : M string :=
  a <- parse (UpdateCardArgumentsSchema args) ;;
  let '(cardId, front, back, tags) := a in
  noteId <- note_of_card cardId ;;
  when (given front || given back)
    (updateNoteFields noteId (field_if "Front" front ++ field_if "Back" back)) ;;;
  replaceTags noteId tags ;;;
  ret ("Successfully updated card " +++ string_of_Z cardId).

Definition create_cloze_card (args : value) : M string :=
  a <- parse (CreateClozeCardArgumentsSchema args) ;;
  let '(deckName, text, backExtra, tags) := a in
  let backExtra := match backExtra with Some b => b | None => "" end in
  let tags := match tags with Some t => t | None => [] end in
  if negb (includes "{{c" text) || negb (includes "}}" text) then
    throw cloze_error
  else
    ankiRequest_ "addNote"
      (VObj [("note", VObj [("deckName", VStr deckName);
                            ("modelName", VStr "Cloze");
                            ("fields", VObj [("Text", VStr text);
                                             ("Back", VStr backExtra)]);
                            ("tags", strings tags)])]) ;;;
    ret ("Successfully created new cloze card in deck " +++ dq +++ deckName +++ dq).

(** Lines 493-502: the [Text] entry of [fields], validated when [text] is
    truthy. *)
Definition text_field (text : option string) : M (list (string * value)) :=
  match text with
  | Some t =>
      if given text then
        if negb (includes "{{c" t) || negb (includes "}}" t) then
          throw cloze_error
        else ret (field "Text" t)
      else ret []
  | None => ret []
  end.

(** Lines 503-505: [if (backExtra !== undefined)]. *)
Definition back_extra_field (backExtra : option string)
  : list (string * value) :=
  match backExtra with
  | Some b => field "Back Extra" b
  | None => []
  end.

Definition update_cloze_card (args : value) : M string :=
  a <- parse (UpdateClozeCardArgumentsSchema args) ;;
  let '(cardId, text, backExtra, tags) := a in
  noteId <- note_of_card cardId ;;
  noteInfo <- ankiRequest_ "notesInfo" (VObj [("notes", VArr [noteId])]) ;;
  note <- lift (get_index noteInfo 0) ;;
  modelName <- lift (get_prop note "modelName") ;;
  if negb (is_str modelName "Cloze") then throw not_cloze_error
  else
    when (given text || given backExtra)
      (textField <- text_field text ;;
       updateNoteFields noteId (textField ++ back_extra_field backExtra)) ;;;
    replaceTags noteId tags ;;;
    ret ("Successfully updated cloze card " +++ string_of_Z cardId).

(** The [catch] of lines 534-543. *)
Definition report (error : exn) : M string :=
  match error with
  | ZodError errors =>
      throw (Error ("Invalid arguments: " +++
        String.concat ", "
          (map (fun e => String.concat "." (fst e) +++ ": " +++ snd e) errors)))
  | _ => throw error
  end.

Definition callTool (name : string) (args : value) : M string :=
  try_catch
    (if String.eqb name "create-deck" then create_deck args
     else if String.eqb name "create-card" then create_card args
     else if String.eqb name "update-card" then update_card args
     else if String.eqb name "create-cloze-card" then create_cloze_card args
     else if String.eqb name "update-cloze-card" then update_cloze_card args
     else throw (Error ("Unknown tool: " +++ name)))
    report.

(** ** The deck reader: [ReadResourceRequestSchema], lines 564-693 *)

(** The chunk loop of lines 596-612,
    [for (let i = 0; i < noteIds.length; i += chunkSize)], from the current
    [i] and [allNotes] on; [length] is [noteIds.length]. *)
Equations? fetchNotes (noteIds length : value) (i : Z) (allNotes : list value)
    (h : history) : outcome (list value) * history
    by wf (Z.to_nat (bound length - i)) lt :=
  fetchNotes noteIds length i allNotes h with inspect (js_lt i length) := {
    | exist _ (Ok true) _ with slice noteIds i (i + 5) := {
        | Ok chunk
            with inspect (ankiRequest_ "notesInfo" (VObj [("notes", chunk)]) h) := {
            | exist _ (Ok chunkNotes, h') _ =>
                fetchNotes noteIds length (i + 5) (concat allNotes chunkNotes) h'
            | exist _ (Throw e, h') _ => (Throw e, h')
            | exist _ (OffType, h') _ => (OffType, h') }
        | Throw e => (Throw e, h)
        | OffType => (OffType, h) }
    | exist _ (Ok false) _ => (Ok allNotes, h)
    | exist _ (Throw e) _ => (Throw e, h)
    | exist _ OffType _ => (OffType, h) }.
Proof.
  destruct length; simpl in *; try discriminate.
  match goal with H : Ok (_ <? _) = Ok true |- _ =>
    injection H as H; apply Z.ltb_lt in H end.
  lia.
Qed.

Definition read_deck (uri : string) : M string :=
  match match_deck_uri uri with
  | None => throw (Error ("Invalid resource URI: " +++ uri))
  | Some group =>
      match decodeURIComponent group with
      | None => throw (URIError "URI malformed")
      | Some deckName =>
          noteIds <- ankiRequest_ "findNotes"
                       (VObj [("query", VStr ("deck:" +++ deckName))]) ;;
          length <- lift (get_prop noteIds "length") ;;
          if is_num length 0 then
            ret ("Deck: " +++ deckName +++ nl +++ nl +++
                 "No notes found in this deck.")
          else
            allNotes <- fetchNotes noteIds length 0 [] ;;
            cards <- lift (map_outcome cardInfo allNotes) ;;
            lines <- lift (map_outcome render cards) ;;
            ret ("Deck: " +++ deckName +++ nl +++ nl +++ String.concat nl lines)
      end
  end.

(** The [catch] of lines 685-692. *)
Definition readResource (uri : string) : M string :=
  try_catch (read_deck uri)
    (fun error =>
       throw (Error ("Failed to read deck: " +++ message_of error +++
                     ". Make sure Anki is running and AnkiConnect plugin is installed."))).

(** ** The deck list: [ListResourcesRequestSchema], lines 547-561

    [encodeURIComponent] is taken as an argument: [None] when it throws a
    [URIError].  It is applied to the string conversion of each deck. *)
Definition listResources (encodeURIComponent : string -> option string)
  : M (list resource) :=
  try_catch
    (decks <- ankiRequest_ "deckNames" (VObj []) ;;
     match decks with
     | VArr elems =>
         lift (map_outcome
                 (fun deck =>
                    match encodeURIComponent (to_string deck) with
                    | Some encoded =>
                        Ok (mkResource ("anki://deck/" +++ encoded) deck
                              ("Anki deck: " +++ to_string deck))
                    | None => Throw (URIError "URI malformed")
                    end)
                 elems)
     | _ => throw (TypeError "decks.map is not a function")
     end)
    (fun error => throw error).

(** ** Vocabulary of the specification *)

Definition null_on_success (action : string) : bool :=
  String.eqb action "updateNoteFields" || String.eqb action "replaceTags".

(** The [error] and [result] fields of a 200 response whose body parses to
    something the fields can be read from. *)
Definition envelope (r : reply) : option (value * value) :=
  match r with
  | ConnError _ => None
  | Http statusCode responseData =>
      if statusCode =? 200 then
        match JSON_parse responseData with
        | Some parsedData =>
            match get_prop parsedData "error", get_prop parsedData "result" with
            | Ok error, Ok result => Some (error, result)
            | _, _ => None
            end
        | None => None
        end
      else None
  end.

(** Transport-level failure: connection error, non-200 status, or a body
    that [JSON.parse] rejects. *)
Definition transport_failure (r : reply) : bool :=
  match r with
  | ConnError _ => true
  | Http statusCode responseData =>
      negb (statusCode =? 200)
      || match JSON_parse responseData with Some _ => false | None => true end
  end.

Definition transport_error (r : reply) : exn :=
  match r with
  | ConnError message => Error message
  | Http statusCode responseData =>
      if statusCode =? 200 then parse_failure responseData
      else Error ("AnkiConnect request failed with status "
                  +++ string_of_Z statusCode +++ ": " +++ responseData)
  end.


Definition null_result_error : exn :=
  Error "AnkiConnect returned null/undefined result".


(** A 200 response with a null or absent [error] and a null or absent
    [result]. *)
Definition null_result (r : reply) : bool :=
  match envelope r with
  | Some (error, result) => nullish error && nullish result
  | None => false
  end.

(** What [n] attempts that all fail leave in the history: the request [n]
    times, a sleep between two consecutive ones, the delay doubling. *)
Fixpoint backoff (r : request) (n : nat) (delay : Z) : history :=
  match n with
  | O => []
  | S n' =>
      EvRequest r ::
      match n' with
      | O => []
      | S _ => EvSleep delay :: backoff r n' (delay * 2)
      end
  end.

(** The history in front of the last of [n] failing attempts. *)
Definition before_last (h : history) (r : request) (n : nat) (delay : Z)
  : history :=
  h ++ removelast (backoff r n delay).

(** [emits P m]: running [m] only appends to the history, and every request
    it sends satisfies [P]. *)
Definition emits {A} (P : request -> Prop) (m : M A) : Prop :=
  forall h, exists evs, snd (m h) = h ++ evs /\ Forall P (requests evs).

(** [never_ok m]: [m] does not complete normally. *)
Definition never_ok {A} (m : M A) : Prop :=
  forall h a, fst (m h) <> Ok a.

(** The requests that only read: the two lookups of the update handlers. *)
Definition is_lookup (r : request) : Prop :=
  action r = "cardsToNotes" \/ action r = "notesInfo".

(** The [fields] object of an [updateNoteFields] or [addNote] request. *)
Definition written_fields (r : request) : list (string * value) :=
  match params r with
  | VObj ps =>
      match lookup "note" ps with
      | VObj ns =>
          match lookup "fields" ns with
          | VObj fs => fs
          | _ => []
          end
      | _ => []
      end
  | _ => []
  end.

(** An optional string argument that is absent or the empty string. *)
Definition blank (s : option string) : Prop := s = None \/ s = Some "".

(** What create-cloze-card sends once the text has passed validation. *)
Definition cloze_note_request (deckName text : string)
    (backExtra : option string) (tags : option (list string)) : request :=
  mkRequest "addNote" 6
    (VObj [("note",
            VObj [("deckName", VStr deckName);
                  ("modelName", VStr "Cloze");
                  ("fields",
                   VObj [("Text", VStr text);
                         ("Back",
                          VStr (match backExtra with
                                | Some b => b
                                | None => ""
                                end))]);
                  ("tags",
                   strings (match tags with
                            | Some t => t
                            | None => []
                            end))])]).

(** What the update handlers may send: lookups, tag replacements, and field
    updates that carry exactly [fields], and those only when [wanted]. *)
Definition update_sends (wanted : bool) (fields : list (string * value))
    (r : request) : Prop :=
  action r = "updateNoteFields" -> wanted = true /\ written_fields r = fields.

(** The [j]-th batch of five and the batches of a list of note ids. *)
Definition batch (ids : list value) (j : nat) : list value :=
  firstn 5 (skipn (5 * j) ids).

Definition batches (ids : list value) : list (list value) :=
  map (batch ids) (seq 0 ((List.length ids + 4) / 5)).

Definition notes_request (chunk : list value) : request :=
  mkRequest "notesInfo" 6 (VObj [("notes", VArr chunk)]).

Definition find_request (deckName : string) : request :=
  mkRequest "findNotes" 6 (VObj [("query", VStr ("deck:" +++ deckName))]).

(** The error that the [catch] of the tool handler makes of a [ZodError]. *)
Definition invalid_arguments (errors : list (list string * string)) : exn :=
  Error ("Invalid arguments: " +++
         String.concat ", "
           (map (fun e => String.concat "." (fst e) +++ ": " +++ snd e) errors)).

(** The issues that the schema of a tool finds in its arguments. *)
Definition issues_of {A} (r : zres A) : list (list string * string) :=
  match r with
  | inl errors => errors
  | inr _ => []
  end.

Definition issues (name : string) (args : value) : list (list string * string) :=
  if String.eqb name "create-deck" then issues_of (CreateDeckArgumentsSchema args)
  else if String.eqb name "create-card" then
    issues_of (CreateCardArgumentsSchema args)
  else if String.eqb name "update-card" then
    issues_of (UpdateCardArgumentsSchema args)
  else if String.eqb name "create-cloze-card" then
    issues_of (CreateClozeCardArgumentsSchema args)
  else if String.eqb name "update-cloze-card" then
    issues_of (UpdateClozeCardArgumentsSchema args)
  else [].

(** The error that the [catch] of the deck reader makes of a message. *)
Definition read_failure (message : string) : exn :=
  Error ("Failed to read deck: " +++ message +++
         ". Make sure Anki is running and AnkiConnect plugin is installed.").

(** A string that holds none of the line terminators. *)
Definition one_line (s : string) : bool :=
  negb (existsb (fun t => includes t s) line_terminators).

Definition cards_request (cardId : Z) : request :=
  mkRequest "cardsToNotes" 6 (VObj [("cards", VArr [VNum cardId])]).

Definition fields_request (noteId : value) (fields : list (string * value))
  : request :=
  mkRequest "updateNoteFields" 6
    (VObj [("note", VObj [("id", noteId); ("fields", VObj fields)])]).

Definition tags_request (noteId : value) (tags : list string) : request :=
  mkRequest "replaceTags" 6
    (VObj [("notes", VArr [noteId]); ("tags", VStr (String.concat " " tags))]).

Definition basic_note_request (deckName front back : string)
    (tags : option (list string)) : request :=
  mkRequest "addNote" 6
    (VObj [("note",
            VObj [("deckName", VStr deckName);
                  ("modelName", VStr "Basic");
                  ("fields", VObj [("Front", VStr front); ("Back", VStr back)]);
                  ("tags",
                   strings (match tags with
                            | Some t => t
                            | None => []
                            end))])]).



(** ** Numbers: properties *)

Lemma nearest_double_small m : m < 2 ^ 53 -> nearest_double m = m.
Proof.
  intros H. unfold nearest_double.
  destruct (Z.leb_spec (Z.log2 m - 52) 0) as [_|Hl]; [reflexivity|].
  exfalso. destruct (Z.le_gt_cases m 0) as [H0|H0].
  - rewrite (Z.log2_nonpos m H0) in Hl. lia.
  - assert (Z.log2 m < 53) by (apply Z.log2_lt_pow2; lia). lia.
Qed.

Lemma nearest_double_large m : 2 ^ 53 <= m -> 2 ^ 53 <= nearest_double m.
Proof.
  intros H. unfold nearest_double.
  assert (Hlog : 53 <= Z.log2 m) by (apply Z.log2_le_pow2; lia).
  destruct (Z.leb_spec (Z.log2 m - 52) 0) as [Hl|Hl]; [lia|].
  set (sh := Z.log2 m - 52) in *.
  assert (Hq : 2 ^ 52 <= Z.shiftr m sh).
  { rewrite Z.shiftr_div_pow2 by lia.
    apply Z.div_le_lower_bound; [apply Z.pow_pos_nonneg; lia|].
    rewrite Z.mul_comm, <- Z.pow_add_r by lia.
    replace (52 + sh) with (Z.log2 m) by (unfold sh; lia).
    apply Z.log2_spec. lia. }
  rewrite Z.shiftl_mul_pow2 by lia.
  assert (2 ^ 1 <= 2 ^ sh) by (apply Z.pow_le_mono_r; lia).
  change (2 ^ 1) with 2 in *. change (2 ^ 53) with (2 ^ 52 * 2).
  apply Z.mul_le_mono_nonneg; try lia.
  destruct (_ || _); lia.
Qed.

Lemma shortest_small fuel x e : 0 < x < 2 ^ 53 -> shortest fuel x e = x.
Proof.
  intros Hx. revert e. induction fuel as [|fuel IH]; intros e; [reflexivity|].
  cbn [shortest].
  set (p := 10 ^ e).
  assert (Hp : 0 <= p) by (apply Z.pow_nonneg; lia).
  assert (Hlo : 0 <= x / p * p <= x).
  { destruct (Z.eq_dec p 0) as [->|Hp0].
    - rewrite Z.mul_0_r. lia.
    - split; [apply Z.mul_nonneg_nonneg; [apply Z.div_pos|]; lia|].
      rewrite Z.mul_comm. apply Z.mul_div_le. lia. }
  rewrite (nearest_double_small (x / p * p)) by lia.
  assert (Hhi : (nearest_double (x / p * p + p) =? x) = true
                -> x / p * p + p = x).
  { intros E. apply Z.eqb_eq in E.
    destruct (Z.lt_ge_cases (x / p * p + p) (2 ^ 53)) as [Hs|Hs].
    - rewrite nearest_double_small in E by exact Hs. exact E.
    - pose proof (nearest_double_large _ Hs). lia. }
  destruct (Z.eqb_spec (x / p * p) x) as [E|E];
    destruct (nearest_double (x / p * p + p) =? x) eqn:E';
    cbn [andb]; try apply IH; try (apply Hhi; reflexivity); try exact E.
  destruct (_ || _); [exact E|apply Hhi; reflexivity].
Qed.

Lemma decimal_opp n : 0 < n -> decimal (- n) = "-" +++ decimal n.
Proof. destruct n; try lia. reflexivity. Qed.

(** Below 2^53 in magnitude ([Number.isSafeInteger]) a number is printed
    with all its digits. *)
Lemma string_of_Z_safe n : Z.abs n < 2 ^ 53 -> string_of_Z n = decimal n.
Proof.
  intros H. unfold string_of_Z.
  destruct (Z.eqb_spec n 0) as [->|Hn]; [reflexivity|].
  rewrite nearest_double_small by exact H.
  assert (Hbig : (2 ^ 1024 <=? Z.abs n) = false).
  { apply Z.leb_gt. eapply Z.lt_le_trans; [exact H|].
    apply Z.pow_le_mono_r; lia. }
  rewrite Hbig, shortest_small by lia.
  assert (Hexp : (Z.abs n <? 10 ^ 21) = true).
  { apply Z.ltb_lt. eapply Z.lt_trans; [exact H|]. reflexivity. }
  rewrite Hexp.
  destruct (Z.ltb_spec n 0).
  - rewrite <- (Z.opp_involutive n) at 2. rewrite decimal_opp by lia.
    rewrite Z.abs_neq by lia. reflexivity.
  - rewrite Z.abs_eq by lia. reflexivity.
Qed.

(** Beyond 2^53 the digits printed are those of the double: 2^63 and 2^63 - 1
    are the same number, an integer that is no double is printed as its
    neighbour, and from 1e21 on the numeral has an exponent. *)
Lemma string_of_Z_beyond :
  string_of_Z (2 ^ 63) = "9223372036854776000"
  /\ string_of_Z (2 ^ 63 - 1) = "9223372036854776000"
  /\ string_of_Z (2 ^ 53 + 1) = "9007199254740992"
  /\ string_of_Z (- 2 ^ 64) = "-18446744073709552000"
  /\ string_of_Z (10 ^ 21) = "1e+21"
  /\ string_of_Z (123456789012345678901234567890) = "1.2345678901234568e+29"
  /\ string_of_Z (10 ^ 309) = "Infinity".
Proof. vm_compute. repeat split. Qed.

(** ** The request pipeline: properties *)

Lemma attempt_run action params h :
  (r <- post (mkRequest action 6 params) ;; lift (settle action r)) h
  = (settle action (backend h (mkRequest action 6 params)),
     h ++ [EvRequest (mkRequest action 6 params)]).
Proof.
  unfold bind, post, lift.
  destruct (settle action (backend h (mkRequest action 6 params))); reflexivity.
Qed.

Lemma retry_nil action params retries delay h :
  retry action params retries [] delay h
  = (Throw (Error ("Failed after " +++ string_of_Z retries +++ " attempts")), h).
Proof. reflexivity. Qed.

Lemma retry_ok action params retries attempt rest delay h result :
  settle action (backend h (mkRequest action 6 params)) = Ok result ->
  retry action params retries (attempt :: rest) delay h
  = (Ok result, h ++ [EvRequest (mkRequest action 6 params)]).
Proof.
  intros Hs. cbn [retry]. unfold try_catch.
  rewrite attempt_run, Hs. reflexivity.
Qed.

Lemma retry_last action params retries rest delay h e :
  settle action (backend h (mkRequest action 6 params)) = Throw e ->
  retry action params retries (retries :: rest) delay h
  = (Throw e, h ++ [EvRequest (mkRequest action 6 params)]).
Proof.
  intros Hs. cbn [retry]. unfold try_catch.
  rewrite attempt_run, Hs, Z.eqb_refl. reflexivity.
Qed.

Lemma retry_again action params retries attempt rest delay h e :
  settle action (backend h (mkRequest action 6 params)) = Throw e ->
  attempt <> retries ->
  retry action params retries (attempt :: rest) delay h
  = retry action params retries rest (delay * 2)
      (h ++ [EvRequest (mkRequest action 6 params); EvSleep delay]).
Proof.
  intros Hs Hne. cbn [retry]. unfold try_catch at 1.
  rewrite attempt_run, Hs.
  destruct (Z.eqb_spec attempt retries) as [|_]; [contradiction|].
  unfold bind, sleep. rewrite <- app_assoc. reflexivity.
Qed.

Lemma settle_not_offtype action r : settle action r <> OffType.
Proof.
  destruct r as [m|sc body]; cbn; [discriminate|].
  destruct (negb (sc =? 200)); [discriminate|].
  destruct (JSON_parse body) as [p|]; [|discriminate].
  destruct (get_prop p "error") as [e| |]; try discriminate.
  destruct (truthy e); [discriminate|].
  destruct (get_prop p "result") as [res| |]; try discriminate.
  destruct (nullish res); [|discriminate].
  destruct (_ || _); discriminate.
Qed.

(** When every attempt fails, whatever the kind of failure, the loop runs
    through all the attempts that remain and throws the last error. *)
Lemma retry_exhausts action params retries :
  (forall h, exists e,
      settle action (backend h (mkRequest action 6 params)) = Throw e) ->
  forall n k delay h,
    Z.of_nat k + Z.of_nat (S n) = retries ->
    retry action params retries (map Z.of_nat (seq (S k) (S n))) delay h
    = (settle action
         (backend (before_last h (mkRequest action 6 params) (S n) delay)
                  (mkRequest action 6 params)),
       h ++ backoff (mkRequest action 6 params) (S n) delay).
Proof.
  intros Hfail. unfold before_last.
  induction n as [|n IH]; intros k delay h Hk.
  - cbn [seq map backoff removelast]. rewrite app_nil_r.
    destruct (Hfail h) as [e He]. rewrite He.
    replace (Z.of_nat (S k)) with retries by lia.
    apply retry_last; exact He.
  - cbn [seq map]. destruct (Hfail h) as [e He].
    rewrite (retry_again _ _ _ _ _ _ _ e He) by lia.
    change (Z.of_nat (S (S k)) :: map Z.of_nat (seq (S (S (S k))) n))
      with (map Z.of_nat (seq (S (S k)) (S n))).
    rewrite IH by lia.
    f_equal.
    + f_equal. f_equal. rewrite <- app_assoc. reflexivity.
    + rewrite <- app_assoc. reflexivity.
Qed.

Lemma requests_backoff r n delay : requests (backoff r n delay) = repeat r n.
Proof.
  revert delay. induction n as [|n IH]; intros delay; [reflexivity|].
  destruct n as [|n]; [reflexivity|].
  specialize (IH (delay * 2)).
  cbn [backoff] in *. cbn [requests flat_map app] in *.
  rewrite IH. reflexivity.
Qed.

Lemma sleeps_backoff r n delay :
  sleeps (backoff r n delay)
  = map (fun i => delay * 2 ^ Z.of_nat i) (seq 0 (n - 1)).
Proof.
  revert delay. induction n as [|n IH]; intros delay; [reflexivity|].
  destruct n as [|n]; [reflexivity|].
  specialize (IH (delay * 2)).
  cbn [backoff] in *. cbn [sleeps flat_map app] in *.
  rewrite IH. cbn [Nat.sub seq map]. rewrite Nat.sub_0_r.
  f_equal; [cbn; lia|].
  rewrite <- seq_shift, map_map.
  apply map_ext. intros i. rewrite Nat2Z.inj_succ, Z.pow_succ_r by lia. lia.
Qed.

Lemma ankiRequest_exhausts action params retries delay h :
  1 <= retries ->
  (forall h', exists e,
      settle action (backend h' (mkRequest action 6 params)) = Throw e) ->
  ankiRequest action params retries delay h
  = (settle action
       (backend (before_last h (mkRequest action 6 params)
                   (Z.to_nat retries) delay)
                (mkRequest action 6 params)),
     h ++ backoff (mkRequest action 6 params) (Z.to_nat retries) delay).
Proof.
  intros Hr Hfail. unfold ankiRequest, attempts.
  destruct (Z.to_nat retries) as [|n] eqn:Hn; [lia|].
  apply (retry_exhausts action params retries Hfail n 0%nat). lia.
Qed.

Lemma settle_transport action r :
  transport_failure r = true -> settle action r = Throw (transport_error r).
Proof.
  destruct r as [m|sc body]; cbn; [reflexivity|].
  destruct (sc =? 200); cbn; [|reflexivity].
  destruct (JSON_parse body); [discriminate|reflexivity].
Qed.


Lemma settle_null_result action r :
  null_result r = true ->
  settle action r
  = if null_on_success action then Ok (VObj []) else Throw null_result_error.
Proof.
  unfold null_result, envelope, null_result_error, null_on_success.
  destruct r as [m|sc body]; cbn; [discriminate|].
  destruct (sc =? 200); cbn; [|discriminate].
  destruct (JSON_parse body) as [p|]; [|discriminate].
  destruct (get_prop p "error") as [e| |]; try discriminate.
  destruct (get_prop p "result") as [res| |]; try discriminate.
  intros H. apply andb_prop in H as [He Hres].
  assert (truthy e = false) as -> by (destruct e; cbn in *; congruence).
  rewrite Hres. reflexivity.
Qed.


(** C2: when every attempt meets a transport-level failure (connection
    error, non-200 status, unparseable body), [ankiRequest] makes exactly
    [retries] attempts, sleeps between consecutive attempts for [delay],
    [2 * delay], [4 * delay], ..., and throws the transport error of the
    last attempt. *)
Theorem transport_failures_exhaust_retries action params retries delay h :
  1 <= retries ->
  (forall h',
      transport_failure (backend h' (mkRequest action 6 params)) = true) ->
  let r := mkRequest action 6 params in
  let n := Z.to_nat retries in
  ankiRequest action params retries delay h
  = (Throw (transport_error (backend (before_last h r n delay) r)),
     h ++ backoff r n delay)
  /\ requests (backoff r n delay) = repeat r n
  /\ sleeps (backoff r n delay)
     = map (fun i => delay * 2 ^ Z.of_nat i) (seq 0 (n - 1)).
Proof.
  intros Hr Htr r n. repeat split.
  - rewrite ankiRequest_exhausts; trivial.
    + fold r n. rewrite settle_transport by apply Htr. reflexivity.
    + intros h'. eexists. apply settle_transport, Htr.
  - apply requests_backoff.
  - apply sleeps_backoff.
Qed.

(** C3: when the backend answers with 200, a null or absent [error] and a
    null or absent [result], [ankiRequest] succeeds with the empty object
    exactly when the action is "updateNoteFields" or "replaceTags"; for every
    other action it fails with the null-result error. *)
Theorem null_result_by_action action params retries delay h :
  1 <= retries ->
  (forall h', null_result (backend h' (mkRequest action 6 params)) = true) ->
  let r := mkRequest action 6 params in
  let run := ankiRequest action params retries delay h in
  (fst run = Ok (VObj [])
   <-> action = "updateNoteFields" \/ action = "replaceTags")
  /\ (action = "updateNoteFields" \/ action = "replaceTags" ->
      run = (Ok (VObj []), h ++ [EvRequest r]))
  /\ (~ (action = "updateNoteFields" \/ action = "replaceTags") ->
      run = (Throw null_result_error,
             h ++ backoff r (Z.to_nat retries) delay)).
Proof.
  clear decodeURIComponent.
  intros Hr Hnull r run.
  assert (Hallow : null_on_success action = true
                   <-> action = "updateNoteFields" \/ action = "replaceTags").
  { unfold null_on_success. rewrite orb_true_iff, !String.eqb_eq. tauto. }
  assert (Hyes : null_on_success action = true ->
                 run = (Ok (VObj []), h ++ [EvRequest r])).
  { intros Ha. unfold run, ankiRequest, attempts.
    destruct (Z.to_nat retries) as [|n] eqn:Hn; [lia|].
    cbn [seq map]. apply retry_ok.
    rewrite settle_null_result by apply Hnull. rewrite Ha. reflexivity. }
  assert (Hno : null_on_success action = false ->
                run = (Throw null_result_error,
                       h ++ backoff r (Z.to_nat retries) delay)).
  { intros Ha. unfold run. rewrite ankiRequest_exhausts; trivial.
    - rewrite settle_null_result by apply Hnull. rewrite Ha. reflexivity.
    - intros h'. eexists. rewrite settle_null_result by apply Hnull.
      rewrite Ha. reflexivity. }
  split; [|split].
  - split.
    + intros Hok. apply Hallow.
      destruct (null_on_success action) eqn:Ha; [reflexivity|].
      rewrite (Hno eq_refl) in Hok. discriminate.
    + intros Ha. apply Hallow in Ha. rewrite (Hyes Ha). reflexivity.
  - intros Ha. apply Hyes, Hallow, Ha.
  - intros Ha. apply Hno.
    destruct (null_on_success action) eqn:E; [|reflexivity].
    exfalso. apply Ha, Hallow. reflexivity.
Qed.

(** ** What a piece of code sends: a frame rule for histories *)

Lemma requests_app h1 h2 : requests (h1 ++ h2) = requests h1 ++ requests h2.
Proof. unfold requests. apply flat_map_app. Qed.

Lemma emits_pure {A} (P : request -> Prop) (o : outcome A) : emits P (lift o).
Proof. intros h. exists []. rewrite app_nil_r. split; [reflexivity|constructor]. Qed.

Lemma emits_ret {A} (P : request -> Prop) (a : A) : emits P (ret a).
Proof. exact (emits_pure P (Ok a)). Qed.

Lemma emits_throw {A} (P : request -> Prop) (e : exn) : emits P (@throw A e).
Proof. exact (emits_pure P (Throw e)). Qed.

Lemma emits_sleep (P : request -> Prop) ms : emits P (sleep ms).
Proof. intros h. exists [EvSleep ms]. split; [reflexivity|constructor]. Qed.

Lemma emits_post (P : request -> Prop) r : P r -> emits P (post r).
Proof.
  intros Hr h. exists [EvRequest r]. split; [reflexivity|].
  repeat constructor. exact Hr.
Qed.

Lemma emits_bind {A B} (P : request -> Prop) (m : M A) (k : A -> M B) :
  emits P m -> (forall a, emits P (k a)) -> emits P (bind m k).
Proof.
  intros Hm Hk h. unfold bind.
  destruct (Hm h) as (evs & Hevs & HP).
  destruct (m h) as [[a|e|] h1]; cbn in Hevs; subst h1.
  - destruct (Hk a (h ++ evs)) as (evs' & Hevs' & HP').
    exists (evs ++ evs'). rewrite Hevs', app_assoc. split; [reflexivity|].
    rewrite requests_app. apply Forall_app. split; assumption.
  - exists evs. split; [reflexivity|assumption].
  - exists evs. split; [reflexivity|assumption].
Qed.

Lemma emits_try_catch {A} (P : request -> Prop) (m : M A) handler :
  emits P m -> (forall e, emits P (handler e)) -> emits P (try_catch m handler).
Proof.
  intros Hm Hk h. unfold try_catch.
  destruct (Hm h) as (evs & Hevs & HP).
  destruct (m h) as [[a|e|] h1]; cbn in Hevs; subst h1.
  - exists evs. split; [reflexivity|assumption].
  - destruct (Hk e (h ++ evs)) as (evs' & Hevs' & HP').
    exists (evs ++ evs'). rewrite Hevs', app_assoc. split; [reflexivity|].
    rewrite requests_app. apply Forall_app. split; assumption.
  - exists evs. split; [reflexivity|assumption].
Qed.

Lemma emits_when (P : request -> Prop) b m :
  (b = true -> emits P m) -> emits P (when b m).
Proof. destruct b; cbn; intros H; [apply H; reflexivity|apply emits_ret]. Qed.

Lemma emits_parse {A} (P : request -> Prop) (r : zres A) : emits P (parse r).
Proof. destruct r; [apply emits_throw|apply emits_ret]. Qed.

Lemma emits_retry (P : request -> Prop) action params retries remaining delay :
  P (mkRequest action 6 params) ->
  emits P (retry action params retries remaining delay).
Proof.
  intros Hr. revert delay.
  induction remaining as [|attempt rest IH]; intros delay; cbn [retry].
  - apply emits_throw.
  - apply emits_try_catch.
    + apply emits_bind; [apply emits_post, Hr|intros; apply emits_pure].
    + intros e. destruct (attempt =? retries); [apply emits_throw|].
      apply emits_bind; [apply emits_sleep|intros; apply IH].
Qed.

Lemma emits_ankiRequest (P : request -> Prop) action params retries delay :
  P (mkRequest action 6 params) ->
  emits P (ankiRequest action params retries delay).
Proof. apply emits_retry. Qed.

(** ** The tool handlers: properties *)

Lemma bind_ret {A B} (a : A) (k : A -> M B) : bind (ret a) k = k a.
Proof. reflexivity. Qed.

Lemma bind_lift_ok {A B} (a : A) (k : A -> M B) : bind (lift (Ok a)) k = k a.
Proof. reflexivity. Qed.

Lemma bind_throw {A B} (e : exn) (k : A -> M B) : bind (throw e) k = throw e.
Proof. reflexivity. Qed.

Lemma bind_run {A B} (m : M A) (k : A -> M B) h a h' :
  m h = (Ok a, h') -> bind m k h = k a h'.
Proof. intros H. unfold bind. rewrite H. reflexivity. Qed.

Lemma never_ok_throw {A} (e : exn) : never_ok (@throw A e).
Proof. intros h a. discriminate. Qed.

Lemma never_ok_bind {A B} (m : M A) (k : A -> M B) :
  (forall a, never_ok (k a)) -> never_ok (bind m k).
Proof.
  intros Hk h b. unfold bind.
  destruct (m h) as [[a|e|] h1]; [apply Hk|discriminate|discriminate].
Qed.

Lemma never_ok_try_catch {A} (m : M A) handler :
  never_ok m -> (forall e, never_ok (handler e)) -> never_ok (try_catch m handler).
Proof.
  intros Hm Hh h a. unfold try_catch.
  specialize (Hm h). destruct (m h) as [[a'|e|] h1]; cbn in *.
  - exfalso. apply (Hm a'). reflexivity.
  - apply Hh.
  - discriminate.
Qed.

Lemma never_ok_report e : never_ok (report e).
Proof. destruct e; apply never_ok_throw. Qed.

Lemma emits_report (P : request -> Prop) e : emits P (report e).
Proof. destruct e; apply emits_throw. Qed.

Lemma emits_note_of_card (P : request -> Prop) cardId :
  P (mkRequest "cardsToNotes" 6 (VObj [("cards", VArr [VNum cardId])])) ->
  emits P (note_of_card cardId).
Proof.
  intros HP. unfold note_of_card.
  apply emits_bind; [apply emits_ankiRequest, HP|intros noteIdResponse].
  apply emits_bind; [apply emits_pure|intros len].
  destruct (is_num len 0); [apply emits_throw|apply emits_pure].
Qed.

Lemma emits_updateNoteFields (P : request -> Prop) noteId fields :
  P (mkRequest "updateNoteFields" 6
       (VObj [("note", VObj [("id", noteId); ("fields", VObj fields)])])) ->
  emits P (updateNoteFields noteId fields).
Proof.
  intros HP. unfold updateNoteFields.
  apply emits_bind; [apply emits_ankiRequest, HP|intros; apply emits_ret].
Qed.

Lemma emits_replaceTags (P : request -> Prop) noteId tags :
  (forall r, action r = "replaceTags" -> P r) ->
  emits P (replaceTags noteId tags).
Proof.
  intros HP. destruct tags as [t|]; cbn [replaceTags]; [|apply emits_ret].
  apply emits_bind; [|intros; apply emits_ret].
  apply emits_ankiRequest, HP. reflexivity.
Qed.

Lemma emits_text_field (P : request -> Prop) text : emits P (text_field text).
Proof.
  destruct text as [t|]; cbn [text_field]; [|apply emits_ret].
  destruct (given (Some t)); [|apply emits_ret].
  destruct (_ || _); [apply emits_throw|apply emits_ret].
Qed.

Lemma no_requests_of (P : request -> Prop) a evs :
  Forall P (requests evs) ->
  (forall r, P r -> action r <> a) ->
  requests_of a evs = [].
Proof.
  intros HP Hne. unfold requests_of.
  induction HP as [|r rs Hr _ IH]; [reflexivity|].
  cbn [filter]. destruct (String.eqb_spec (action r) a) as [E|_]; [|exact IH].
  exfalso. exact (Hne r Hr E).
Qed.

Lemma requests_of_sound (P : request -> Prop) a evs r :
  Forall P (requests evs) -> In r (requests_of a evs) -> P r /\ action r = a.
Proof.
  intros HP Hin. unfold requests_of in Hin.
  apply filter_In in Hin as [Hin Ha].
  split; [|apply String.eqb_eq, Ha].
  rewrite Forall_forall in HP. apply HP, Hin.
Qed.

Lemma given_false s : given s = false <-> blank s.
Proof.
  unfold blank. destruct s as [t|]; cbn.
  - rewrite negb_false_iff, String.eqb_eq. split.
    + intros ->. right. reflexivity.
    + intros [H|H]; [discriminate|]. injection H as ->. reflexivity.
  - split; [left|]; reflexivity.
Qed.

Lemma field_if_blank name s : blank s -> field_if name s = [].
Proof.
  intros H. apply given_false in H. unfold field_if.
  destruct s as [t|]; [|reflexivity]. rewrite H. reflexivity.
Qed.

Lemma field_if_value name s k :
  lookup k (field_if name s) <> VStr "".
Proof.
  unfold field_if. destruct s as [t|]; cbn; [|discriminate].
  destruct (String.eqb_spec t ""); cbn; [discriminate|].
  destruct (String.eqb k name); [congruence|discriminate].
Qed.

Lemma has_cloze_false text :
  has_cloze text = false ->
  negb (includes "{{c" text) || negb (includes "}}" text) = true.
Proof.
  unfold has_cloze. intros H. rewrite <- negb_andb, H. reflexivity.
Qed.

Lemma has_cloze_true text :
  has_cloze text = true ->
  negb (includes "{{c" text) || negb (includes "}}" text) = false.
Proof.
  unfold has_cloze. intros H. rewrite <- negb_andb, H. reflexivity.
Qed.

Lemma extends_by {A} (P : request -> Prop) (m : M A) h o h' :
  emits P m -> m h = (o, h') ->
  exists evs, h' = h ++ evs /\ Forall P (requests evs).
Proof.
  intros Hm Hrun. destruct (Hm h) as (evs & Hevs & HP).
  rewrite Hrun in Hevs. exists evs. split; assumption.
Qed.

Lemma lookups_write_nothing evs :
  Forall is_lookup (requests evs) ->
  requests_of "updateNoteFields" evs = [] /\ requests_of "replaceTags" evs = [].
Proof.
  intros H. split; apply (no_requests_of is_lookup); trivial;
    intros r [E|E]; rewrite E; discriminate.
Qed.

(** The run of update-cloze-card up to the note-type check, when both
    lookups succeed. *)
Lemma update_cloze_card_checked args cardId text backExtra tags
    h noteId h1 noteInfo h2 note modelName :
  UpdateClozeCardArgumentsSchema args = inr (cardId, text, backExtra, tags) ->
  note_of_card cardId h = (Ok noteId, h1) ->
  ankiRequest_ "notesInfo" (VObj [("notes", VArr [noteId])]) h1
    = (Ok noteInfo, h2) ->
  get_index noteInfo 0 = Ok note ->
  get_prop note "modelName" = Ok modelName ->
  update_cloze_card args h
  = (if negb (is_str modelName "Cloze") then throw not_cloze_error
     else
       when (given text || given backExtra)
         (textField <- text_field text ;;
          updateNoteFields noteId (textField ++ back_extra_field backExtra)) ;;;
       replaceTags noteId tags ;;;
       ret ("Successfully updated cloze card " +++ string_of_Z cardId)) h2
  /\ exists evs, h2 = h ++ evs /\ Forall is_lookup (requests evs).
Proof.
  intros Hargs Hnote Hinfo Hidx Hmodel. split.
  - unfold update_cloze_card. rewrite Hargs. cbn [parse]. rewrite bind_ret.
    rewrite (bind_run _ _ _ _ _ Hnote), (bind_run _ _ _ _ _ Hinfo).
    rewrite Hidx, bind_lift_ok, Hmodel, bind_lift_ok. reflexivity.
  - destruct (extends_by is_lookup _ _ _ _
                (emits_note_of_card is_lookup cardId (or_introl eq_refl)) Hnote)
      as (evs1 & -> & H1).
    destruct (extends_by is_lookup _ _ _ _
                (emits_ankiRequest is_lookup "notesInfo" _ 3 1000
                   (or_intror eq_refl)) Hinfo)
      as (evs2 & -> & H2).
    exists (evs1 ++ evs2). rewrite app_assoc. split; [reflexivity|].
    rewrite requests_app. apply Forall_app. split; assumption.
Qed.

Lemma callTool_update_cloze_card args :
  callTool "update-cloze-card" args = try_catch (update_cloze_card args) report.
Proof. reflexivity. Qed.

(** C7: when the lookups of update-cloze-card find a note whose model name is
    not "Cloze", the operation fails with "This card is not a cloze deletion
    card", and between the call and the error the only requests sent are the
    two lookups: no updateNoteFields and no replaceTags. *)
Theorem update_cloze_card_rejects_other_models args cardId text backExtra tags
    h noteId h1 noteInfo h2 note modelName :
  UpdateClozeCardArgumentsSchema args = inr (cardId, text, backExtra, tags) ->
  note_of_card cardId h = (Ok noteId, h1) ->
  ankiRequest_ "notesInfo" (VObj [("notes", VArr [noteId])]) h1
    = (Ok noteInfo, h2) ->
  get_index noteInfo 0 = Ok note ->
  get_prop note "modelName" = Ok modelName ->
  modelName <> VStr "Cloze" ->
  callTool "update-cloze-card" args h = (Throw not_cloze_error, h2)
  /\ exists evs,
       h2 = h ++ evs
       /\ Forall is_lookup (requests evs)
       /\ requests_of "updateNoteFields" evs = []
       /\ requests_of "replaceTags" evs = [].
Proof.
  intros Hargs Hnote Hinfo Hidx Hmodel Hne.
  destruct (update_cloze_card_checked _ _ _ _ _ _ _ _ _ _ _ _
              Hargs Hnote Hinfo Hidx Hmodel) as (Hrun & evs & Hh2 & Hlook).
  assert (Hstr : is_str modelName "Cloze" = false).
  { destruct modelName as [| | | |s| |]; try reflexivity. cbn.
    apply String.eqb_neq. congruence. }
  split.
  - rewrite callTool_update_cloze_card. unfold try_catch.
    rewrite Hrun, Hstr. reflexivity.
  - exists evs. destruct (lookups_write_nothing evs Hlook). auto.
Qed.

(** The first thing [ankiRequest_] does is to send its request; whatever
    follows in the same handler only appends to the history. *)
Lemma retry_starts action params retries attempt rest delay h :
  exists o evs,
    retry action params retries (attempt :: rest) delay h
    = (o, h ++ EvRequest (mkRequest action 6 params) :: evs).
Proof.
  destruct (settle action (backend h (mkRequest action 6 params)))
    as [a|e|] eqn:Hs.
  - exists (Ok a), []. apply retry_ok, Hs.
  - destruct (Z.eq_dec attempt retries) as [->|Hne].
    + exists (Throw e), []. apply retry_last, Hs.
    + rewrite (retry_again _ _ _ _ _ _ _ e Hs Hne).
      destruct (emits_retry (fun _ => True) action params retries rest
                  (delay * 2) I
                  (h ++ [EvRequest (mkRequest action 6 params); EvSleep delay]))
        as (evs & Hevs & _).
      destruct (retry _ _ _ _ _ _) as [o h2]. cbn [snd] in Hevs. subst h2.
      exists o, (EvSleep delay :: evs). rewrite <- app_assoc. reflexivity.
  - exfalso. exact (settle_not_offtype _ _ Hs).
Qed.

Lemma ankiRequest_starts action params h :
  exists o rest,
    ankiRequest_ action params h
    = (o, h ++ EvRequest (mkRequest action 6 params) :: rest).
Proof. apply retry_starts. Qed.

Lemma ankiRequest_then_starts action params (text : string) h :
  exists rest,
    snd (try_catch (ankiRequest_ action params ;;; ret text) report h)
    = h ++ EvRequest (mkRequest action 6 params) :: rest.
Proof.
  destruct (ankiRequest_starts action params h) as (o & rest & E).
  exists rest. unfold try_catch, bind. rewrite E.
  destruct o as [a|e|]; [reflexivity| |reflexivity].
  destruct e; reflexivity.
Qed.

Lemma callTool_create_cloze_card args :
  callTool "create-cloze-card" args = try_catch (create_cloze_card args) report.
Proof. reflexivity. Qed.

Lemma callTool_update_card args :
  callTool "update-card" args = try_catch (update_card args) report.
Proof. reflexivity. Qed.

Lemma text_field_rejects text :
  text <> "" -> has_cloze text = false ->
  given (Some text) = true /\ text_field (Some text) = throw cloze_error.
Proof.
  intros Hne Hc.
  assert (Hg : given (Some text) = true).
  { cbn. apply negb_true_iff, String.eqb_neq, Hne. }
  split; [exact Hg|].
  unfold text_field. rewrite Hg, (has_cloze_false _ Hc). reflexivity.
Qed.

(** After the note-type check, a non-empty text without a cloze marker ends
    update-cloze-card before anything is written. *)
Lemma update_cloze_card_tail_rejects noteId cardId text backExtra tags :
  text <> "" -> has_cloze text = false ->
  (when (given (Some text) || given backExtra)
     (textField <- text_field (Some text) ;;
      updateNoteFields noteId (textField ++ back_extra_field backExtra)) ;;;
   replaceTags noteId tags ;;;
   ret ("Successfully updated cloze card " +++ string_of_Z cardId))
  = throw cloze_error.
Proof.
  intros Hne Hc. destruct (text_field_rejects text Hne Hc) as [Hg Htf].
  rewrite Hg, Htf. cbn [orb when]. rewrite !bind_throw. reflexivity.
Qed.

Lemma create_cloze_card_sends args deckName text backExtra tags h :
  CreateClozeCardArgumentsSchema args = inr (deckName, text, backExtra, tags) ->
  has_cloze text = true ->
  exists rest,
    snd (callTool "create-cloze-card" args h)
    = h ++ EvRequest (cloze_note_request deckName text backExtra tags) :: rest.
Proof.
  intros Hargs Hc.
  rewrite callTool_create_cloze_card. unfold create_cloze_card.
  rewrite Hargs. cbn [parse]. rewrite bind_ret.
  rewrite (has_cloze_true _ Hc).
  apply ankiRequest_then_starts.
Qed.

(** C6, as the code has it: create-cloze-card validates the text before any
    request is sent; update-cloze-card validates a non-empty text only after
    its two lookups (cardsToNotes, notesInfo), so that a text without a cloze
    marker never succeeds and never reaches updateNoteFields or replaceTags,
    and is reported with the validation error once the lookups have passed
    and the note is a Cloze note.  A text with "{{c" and "}}" passes. *)
Theorem cloze_text_validation :
  (forall args deckName text backExtra tags h,
      CreateClozeCardArgumentsSchema args = inr (deckName, text, backExtra, tags) ->
      has_cloze text = false ->
      callTool "create-cloze-card" args h = (Throw cloze_error, h))
  /\ (forall args cardId text backExtra tags h,
      UpdateClozeCardArgumentsSchema args
        = inr (cardId, Some text, backExtra, tags) ->
      text <> "" -> has_cloze text = false ->
      (forall s, fst (callTool "update-cloze-card" args h) <> Ok s)
      /\ exists evs,
           snd (callTool "update-cloze-card" args h) = h ++ evs
           /\ Forall is_lookup (requests evs))
  /\ (forall args cardId text backExtra tags h noteId h1 noteInfo h2 note,
      UpdateClozeCardArgumentsSchema args
        = inr (cardId, Some text, backExtra, tags) ->
      text <> "" -> has_cloze text = false ->
      note_of_card cardId h = (Ok noteId, h1) ->
      ankiRequest_ "notesInfo" (VObj [("notes", VArr [noteId])]) h1
        = (Ok noteInfo, h2) ->
      get_index noteInfo 0 = Ok note ->
      get_prop note "modelName" = Ok (VStr "Cloze") ->
      callTool "update-cloze-card" args h = (Throw cloze_error, h2))
  /\ (forall args deckName text backExtra tags h,
      CreateClozeCardArgumentsSchema args = inr (deckName, text, backExtra, tags) ->
      has_cloze text = true ->
      exists rest,
        snd (callTool "create-cloze-card" args h)
        = h ++ EvRequest (cloze_note_request deckName text backExtra tags)
               :: rest)
  /\ has_cloze "Capital of France: {{c1::Paris}}" = true
  /\ has_cloze "Capital of France: Paris" = false.
Proof.
  split; [|split; [|split; [|split; [|split; reflexivity]]]].
  - intros args deckName text backExtra tags h Hargs Hc.
    rewrite callTool_create_cloze_card. unfold try_catch, create_cloze_card.
    rewrite Hargs. cbn [parse]. rewrite bind_ret.
    rewrite (has_cloze_false _ Hc). reflexivity.
  - intros args cardId text backExtra tags h Hargs Hne Hc.
    rewrite callTool_update_cloze_card. unfold update_cloze_card.
    rewrite Hargs. cbn [parse]. rewrite bind_ret. split.
    + intros s. revert h s.
      apply never_ok_try_catch; [|apply never_ok_report].
      apply never_ok_bind. intros noteId.
      apply never_ok_bind. intros noteInfo.
      apply never_ok_bind. intros note.
      apply never_ok_bind. intros modelName.
      destruct (negb _); [apply never_ok_throw|].
      rewrite update_cloze_card_tail_rejects by assumption.
      apply never_ok_throw.
    + revert h. apply emits_try_catch; [|apply emits_report].
      apply emits_bind;
        [apply emits_note_of_card; left; reflexivity|intros noteId].
      apply emits_bind;
        [apply emits_ankiRequest; right; reflexivity|intros noteInfo].
      apply emits_bind; [apply emits_pure|intros note].
      apply emits_bind; [apply emits_pure|intros modelName].
      destruct (negb _); [apply emits_throw|].
      rewrite update_cloze_card_tail_rejects by assumption.
      apply emits_throw.
  - intros args cardId text backExtra tags h noteId h1 noteInfo h2 note
      Hargs Hne Hc Hnote Hinfo Hidx Hmodel.
    destruct (update_cloze_card_checked _ _ _ _ _ _ _ _ _ _ _ _
                Hargs Hnote Hinfo Hidx Hmodel) as (Hrun & _).
    rewrite callTool_update_cloze_card. unfold try_catch. rewrite Hrun.
    cbn [is_str String.eqb Ascii.eqb Bool.eqb negb].
    rewrite update_cloze_card_tail_rejects by assumption. reflexivity.
  - intros args deckName text backExtra tags h Hargs Hc.
    eapply create_cloze_card_sends; eassumption.
Qed.

(** C9, at the place where the code departs from it: the note that
    create-cloze-card sends has the fields "Text" and "Back"; the extra text
    is written under "Back", and no field is named "Back Extra", the name
    that update-cloze-card writes and that the deck reader reads. *)
Theorem create_cloze_card_field_names args deckName text backExtra tags h :
  CreateClozeCardArgumentsSchema args = inr (deckName, text, backExtra, tags) ->
  has_cloze text = true ->
  exists r rest,
    snd (callTool "create-cloze-card" args h) = h ++ EvRequest r :: rest
    /\ action r = "addNote"
    /\ map fst (written_fields r) = ["Text"; "Back"]
    /\ has_key "Back Extra" (written_fields r) = false
    /\ lookup "Back" (written_fields r)
       = VStr (match backExtra with Some b => b | None => "" end)
    /\ forall b, map fst (back_extra_field (Some b)) = ["Back Extra"].
Proof.
  intros Hargs Hc.
  destruct (create_cloze_card_sends _ _ _ _ _ h Hargs Hc) as (rest & Hrun).
  exists (cloze_note_request deckName text backExtra tags), rest.
  repeat split; assumption || reflexivity.
Qed.

Lemma emits_bind_val {A B} (P : request -> Prop) (Q : A -> Prop)
    (m : M A) (k : A -> M B) :
  emits P m ->
  (forall h a h', m h = (Ok a, h') -> Q a) ->
  (forall a, Q a -> emits P (k a)) ->
  emits P (bind m k).
Proof.
  intros Hm HQ Hk h. unfold bind.
  destruct (Hm h) as (evs & Hevs & HP).
  destruct (m h) as [[a|e|] h1] eqn:E; cbn in Hevs; subst h1.
  - destruct (Hk a (HQ _ _ _ E) (h ++ evs)) as (evs' & Hevs' & HP').
    exists (evs ++ evs'). rewrite Hevs', app_assoc. split; [reflexivity|].
    rewrite requests_app. apply Forall_app. split; assumption.
  - exists evs. split; [reflexivity|assumption].
  - exists evs. split; [reflexivity|assumption].
Qed.

Lemma text_field_value text h fields h' :
  text_field text h = (Ok fields, h') -> fields = field_if "Text" text.
Proof.
  unfold text_field, field_if, field.
  destruct text as [t|]; [|intros [= <- _]; reflexivity].
  destruct (given (Some t)); [|intros [= <- _]; reflexivity].
  destruct (_ || _); [discriminate|intros [= <- _]; reflexivity].
Qed.

Lemma update_card_sends args cardId front back tags :
  UpdateCardArgumentsSchema args = inr (cardId, front, back, tags) ->
  emits (update_sends (given front || given back)
           (field_if "Front" front ++ field_if "Back" back))
    (callTool "update-card" args).
Proof.
  intros Hargs. rewrite callTool_update_card. unfold update_card.
  rewrite Hargs. cbn [parse]. rewrite bind_ret.
  apply emits_try_catch; [|apply emits_report].
  apply emits_bind; [apply emits_note_of_card; discriminate|intros noteId].
  apply emits_bind.
  - apply emits_when. intros Hw. apply emits_updateNoteFields.
    intros _. split; [exact Hw|reflexivity].
  - intros _. apply emits_bind; [|intros; apply emits_ret].
    apply emits_replaceTags. intros r Hr E. rewrite Hr in E. discriminate.
Qed.

Lemma update_cloze_card_sends args cardId text backExtra tags :
  UpdateClozeCardArgumentsSchema args = inr (cardId, text, backExtra, tags) ->
  emits (update_sends (given text || given backExtra)
           (field_if "Text" text ++ back_extra_field backExtra))
    (callTool "update-cloze-card" args).
Proof.
  intros Hargs. rewrite callTool_update_cloze_card. unfold update_cloze_card.
  rewrite Hargs. cbn [parse]. rewrite bind_ret.
  apply emits_try_catch; [|apply emits_report].
  apply emits_bind; [apply emits_note_of_card; discriminate|intros noteId].
  apply emits_bind; [apply emits_ankiRequest; discriminate|intros noteInfo].
  apply emits_bind; [apply emits_pure|intros note].
  apply emits_bind; [apply emits_pure|intros modelName].
  destruct (negb _); [apply emits_throw|].
  apply emits_bind.
  - apply emits_when. intros Hw.
    apply (emits_bind_val _ (fun fields => fields = field_if "Text" text));
      [apply emits_text_field|apply text_field_value|].
    intros fields ->. apply emits_updateNoteFields.
    intros _. split; [exact Hw|reflexivity].
  - intros _. apply emits_bind; [|intros; apply emits_ret].
    apply emits_replaceTags. intros r Hr E. rewrite Hr in E. discriminate.
Qed.

Lemma update_sends_none wanted fields evs :
  Forall (update_sends wanted fields) (requests evs) ->
  wanted = false ->
  requests_of "updateNoteFields" evs = [].
Proof.
  intros HP Hw. apply (no_requests_of _ _ _ HP).
  intros r Hr E. destruct (Hr E) as [Hw' _]. congruence.
Qed.

(** C10: in update-card and update-cloze-card a front, back or text argument
    that is the empty string counts as absent.  No updateNoteFields request
    carries such a field, none writes the empty string to "Front", "Back" or
    "Text", and when no non-empty field value is supplied no updateNoteFields
    request is sent at all. *)
Theorem empty_arguments_are_skipped :
  (forall args cardId front back tags h,
      UpdateCardArgumentsSchema args = inr (cardId, front, back, tags) ->
      exists evs,
        snd (callTool "update-card" args h) = h ++ evs
        /\ (forall r, In r (requests_of "updateNoteFields" evs) ->
              (blank front -> has_key "Front" (written_fields r) = false)
              /\ (blank back -> has_key "Back" (written_fields r) = false)
              /\ lookup "Front" (written_fields r) <> VStr ""
              /\ lookup "Back" (written_fields r) <> VStr "")
        /\ (blank front -> blank back ->
            requests_of "updateNoteFields" evs = []))
  /\ (forall args cardId text backExtra tags h,
      UpdateClozeCardArgumentsSchema args = inr (cardId, text, backExtra, tags) ->
      exists evs,
        snd (callTool "update-cloze-card" args h) = h ++ evs
        /\ (forall r, In r (requests_of "updateNoteFields" evs) ->
              (blank text -> has_key "Text" (written_fields r) = false)
              /\ lookup "Text" (written_fields r) <> VStr "")
        /\ (blank text -> blank backExtra ->
            requests_of "updateNoteFields" evs = [])).
Proof.
  split.
  - intros args cardId front back tags h Hargs.
    destruct (update_card_sends _ _ _ _ _ Hargs h) as (evs & Hevs & HP).
    exists evs. split; [exact Hevs|]. split.
    + intros r Hin.
      destruct (requests_of_sound _ _ _ _ HP Hin) as [Hr Ha].
      destruct (Hr Ha) as [_ ->].
      repeat split.
      * intros Hb. rewrite (field_if_blank _ _ Hb). cbn [app].
        unfold field_if, field. destruct back as [b|]; [|reflexivity].
        destruct (given (Some b)); reflexivity.
      * intros Hb. rewrite (field_if_blank _ _ Hb), app_nil_r.
        unfold field_if, field. destruct front as [f|]; [|reflexivity].
        destruct (given (Some f)); reflexivity.
      * unfold field_if, field, given.
        destruct front as [f|], back as [b|]; cbn;
          repeat match goal with
                 | |- context [String.eqb ?x ""] =>
                     destruct (String.eqb_spec x ""); cbn
                 end; congruence.
      * unfold field_if, field, given.
        destruct front as [f|], back as [b|]; cbn;
          repeat match goal with
                 | |- context [String.eqb ?x ""] =>
                     destruct (String.eqb_spec x ""); cbn
                 end; congruence.
    + intros Hf Hb. apply (update_sends_none _ _ _ HP).
      apply given_false in Hf, Hb. rewrite Hf, Hb. reflexivity.
  - intros args cardId text backExtra tags h Hargs.
    destruct (update_cloze_card_sends _ _ _ _ _ Hargs h) as (evs & Hevs & HP).
    exists evs. split; [exact Hevs|]. split.
    + intros r Hin.
      destruct (requests_of_sound _ _ _ _ HP Hin) as [Hr Ha].
      destruct (Hr Ha) as [_ ->].
      split.
      * intros Hb. rewrite (field_if_blank _ _ Hb). cbn [app].
        destruct backExtra; reflexivity.
      * unfold field_if, field, given, back_extra_field.
        destruct text as [t|], backExtra as [b|]; cbn;
          repeat match goal with
                 | |- context [String.eqb ?x ""] =>
                     destruct (String.eqb_spec x ""); cbn
                 end; congruence.
    + intros Ht Hb. apply (update_sends_none _ _ _ HP).
      apply given_false in Ht, Hb. rewrite Ht, Hb. reflexivity.
Qed.

(** ** The deck reader: properties *)

Lemma fetchNotes_step noteIds length i allNotes h :
  fetchNotes noteIds length i allNotes h
  = match js_lt i length with
    | Ok true =>
        match slice noteIds i (i + 5) with
        | Ok chunk =>
            match ankiRequest_ "notesInfo" (VObj [("notes", chunk)]) h with
            | (Ok chunkNotes, h') =>
                fetchNotes noteIds length (i + 5) (concat allNotes chunkNotes) h'
            | (Throw e, h') => (Throw e, h')
            | (OffType, h') => (OffType, h')
            end
        | Throw e => (Throw e, h)
        | OffType => (OffType, h)
        end
    | Ok false => (Ok allNotes, h)
    | Throw e => (Throw e, h)
    | OffType => (OffType, h)
    end.
Proof.
  funelim (fetchNotes noteIds length i allNotes h);
    repeat match goal with
           | E : js_lt _ _ = _ |- _ => rewrite E
           | E : slice _ _ _ = _ |- _ => rewrite E
           | E : ankiRequest_ _ _ _ = _ |- _ => rewrite E
           end; reflexivity.
Qed.

Lemma ceil5_bounds (n : nat) :
  (n <= 5 * ((n + 4) / 5) < n + 5)%nat.
Proof.
  pose proof (Nat.div_mod_eq (n + 4) 5) as E.
  pose proof (Nat.mod_upper_bound (n + 4) 5 ltac:(discriminate)) as B.
  lia.
Qed.

Lemma ceil5_split (n : nat) :
  ((n + 4) / 5 = n / 5 + (if n mod 5 =? 0 then 0 else 1))%nat.
Proof.
  pose proof (Nat.div_mod_eq n 5) as E.
  pose proof (Nat.mod_upper_bound n 5 ltac:(discriminate)) as B.
  symmetry. destruct (Nat.eqb_spec (n mod 5) 0) as [Hz|Hnz].
  - apply (Nat.div_unique _ _ _ 4); lia.
  - apply (Nat.div_unique _ _ _ (n mod 5 - 1)); lia.
Qed.

Lemma concat_batches_from ids m j :
  (List.length ids <= 5 * (j + m))%nat ->
  List.concat (map (batch ids) (seq j m)) = skipn (5 * j) ids.
Proof.
  revert j. induction m as [|m IH]; intros j Hn; cbn [seq map List.concat].
  - symmetry. apply skipn_all2. lia.
  - rewrite IH by lia. unfold batch.
    replace (5 * S j)%nat with (5 + 5 * j)%nat by lia.
    rewrite <- skipn_skipn. apply firstn_skipn.
Qed.

Lemma concat_batches ids : List.concat (batches ids) = ids.
Proof.
  unfold batches. rewrite concat_batches_from; [reflexivity|].
  pose proof (ceil5_bounds (List.length ids)). lia.
Qed.

Lemma length_batch ids j :
  List.length (batch ids j) = Nat.min 5 (List.length ids - 5 * j).
Proof. unfold batch. rewrite length_firstn, length_skipn. reflexivity. Qed.

Lemma full_batches ids q :
  (5 * q <= List.length ids)%nat ->
  map (fun j => List.length (batch ids j)) (seq 0 q) = repeat 5%nat q.
Proof.
  induction q as [|q IH]; intros Hq; [reflexivity|].
  rewrite seq_S, map_app, IH by lia. cbn [map Nat.add].
  rewrite length_batch.
  replace (Nat.min 5 (List.length ids - 5 * q)) with 5%nat by lia.
  rewrite <- repeat_cons. reflexivity.
Qed.

Lemma sizes_batches ids :
  map (@List.length value) (batches ids)
  = repeat 5%nat (List.length ids / 5)
    ++ (if (List.length ids mod 5 =? 0)%nat then []
        else [(List.length ids mod 5)%nat]).
Proof.
  unfold batches. rewrite map_map, ceil5_split.
  pose proof (Nat.div_mod_eq (List.length ids) 5) as E.
  pose proof (Nat.mod_upper_bound (List.length ids) 5 ltac:(discriminate)) as B.
  rewrite seq_app, map_app, full_batches by lia.
  f_equal. destruct (Nat.eqb_spec (List.length ids mod 5) 0) as [Hz|Hnz].
  - reflexivity.
  - cbn [seq map Nat.add]. rewrite length_batch. f_equal. lia.
Qed.

Lemma map_outcome_length {A B} (f : A -> outcome B) l bs :
  map_outcome f l = Ok bs -> List.length bs = List.length l.
Proof.
  revert bs. induction l as [|a l IH]; intros bs; cbn [map_outcome].
  - intros [= <-]. reflexivity.
  - unfold and_then. destruct (f a) as [b| |]; try discriminate.
    destruct (map_outcome f l) as [bs'| |]; try discriminate.
    intros [= <-]. cbn. f_equal. apply IH. reflexivity.
Qed.

(** The chunk loop from the [j]-th batch on, against a backend that answers
    the request for a batch with the notes of that batch. *)
Lemma fetchNotes_from (noteOf : value -> value) ids :
  (forall h j,
      settle "notesInfo" (backend h (notes_request (batch ids j)))
      = Ok (VArr (map noteOf (batch ids j)))) ->
  forall m j allNotes h,
    (j + m = (List.length ids + 4) / 5)%nat ->
    fetchNotes (VArr ids) (VNum (Z.of_nat (List.length ids)))
      (Z.of_nat (5 * j)) allNotes h
    = (Ok (allNotes ++ map noteOf (skipn (5 * j) ids)),
       h ++ map (fun c => EvRequest (notes_request c))
              (map (batch ids) (seq j m))).
Proof.
  intros Hback.
  pose proof (ceil5_bounds (List.length ids)) as Hc.
  induction m as [|m IH]; intros j allNotes h Hj; rewrite fetchNotes_step;
    cbn [js_lt].
  - destruct (Z.ltb_spec (Z.of_nat (5 * j)) (Z.of_nat (List.length ids)));
      [lia|].
    rewrite skipn_all2 by lia. cbn. rewrite !app_nil_r. reflexivity.
  - destruct (Z.ltb_spec (Z.of_nat (5 * j)) (Z.of_nat (List.length ids)));
      [|lia].
    cbn [slice].
    replace (Z.to_nat (Z.of_nat (5 * j) + 5 - Z.of_nat (5 * j))) with 5%nat
      by lia.
    rewrite Nat2Z.id. fold (batch ids j).
    unfold ankiRequest_, ankiRequest. change (attempts 3) with [1; 2; 3].
    rewrite (retry_ok _ _ _ _ _ _ _ _ (Hback h j)).
    replace (Z.of_nat (5 * j) + 5) with (Z.of_nat (5 * S j)) by lia.
    rewrite IH by lia. cbn [concat seq map].
    f_equal.
    + f_equal. rewrite <- app_assoc. f_equal.
      rewrite <- map_app. f_equal.
      unfold batch. replace (5 * S j)%nat with (5 + 5 * j)%nat by lia.
      rewrite <- skipn_skipn. apply firstn_skipn.
    + rewrite <- app_assoc. reflexivity.
Qed.

(** What reading a deck sends, whether or not the notes can be projected
    and rendered afterwards. *)
Lemma readResource_requests (noteOf : value -> value) ids uri group deckName h :
  (forall h' j,
      settle "notesInfo" (backend h' (notes_request (batch ids j)))
      = Ok (VArr (map noteOf (batch ids j)))) ->
  match_deck_uri uri = Some group ->
  decodeURIComponent group = Some deckName ->
  settle "findNotes" (backend h (find_request deckName)) = Ok (VArr ids) ->
  snd (readResource uri h)
  = h ++ EvRequest (find_request deckName)
      :: map (fun c => EvRequest (notes_request c)) (batches ids).
Proof.
  intros Hback Huri Hdecode Hfind.
  unfold readResource, try_catch, read_deck. rewrite Huri, Hdecode.
  unfold bind at 1. unfold ankiRequest_ at 1. unfold ankiRequest.
  change (attempts 3) with [1; 2; 3].
  fold (find_request deckName). unfold find_request in Hfind |- *.
  rewrite (retry_ok _ _ _ _ _ _ _ _ Hfind).
  change (get_prop (VArr ids) "length")
    with (Ok (VNum (Z.of_nat (List.length ids)))).
  rewrite bind_lift_ok.
  destruct ids as [|id ids'] eqn:Hids.
  - reflexivity.
  - rewrite <- Hids in *.
    assert (Hnum : is_num (VNum (Z.of_nat (List.length ids))) 0 = false).
    { rewrite Hids. cbn [is_num List.length]. apply Z.eqb_neq. lia. }
    rewrite Hnum. unfold bind at 1.
    pose proof (fetchNotes_from noteOf ids Hback
                  ((List.length ids + 4) / 5) 0 []
                  (h ++ [EvRequest (find_request deckName)]) eq_refl) as Hrun.
    change (Z.of_nat (5 * 0)) with 0 in Hrun.
    unfold find_request in Hrun. rewrite Hrun.
    fold (batches ids). rewrite <- app_assoc. cbn [app skipn Nat.mul].
    unfold bind, lift, ret, throw.
    destruct (map_outcome cardInfo _) as [cards| |]; try reflexivity.
    destruct (map_outcome render cards) as [lines| |]; reflexivity.
Qed.

(** C8: over [n] note ids, against a backend that answers each notesInfo
    request with the notes of the requested ids, the chunk loop sends exactly
    the requests for the batches of five, in order: [ceil(n/5)] of them, of
    sizes 5, ..., 5 and then [n mod 5] when that is not zero.  The notes
    collected are those of the ids in their original order, [n] of them, and
    so are the projected cards.  Reading a deck whose findNotes query returns
    these ids sends that query and then exactly these requests. *)
Theorem notes_fetched_in_batches_of_five (noteOf : value -> value) ids h :
  (forall h' j,
      settle "notesInfo" (backend h' (notes_request (batch ids j)))
      = Ok (VArr (map noteOf (batch ids j)))) ->
  let n := List.length ids in
  get_prop (VArr ids) "length" = Ok (VNum (Z.of_nat n))
  /\ fetchNotes (VArr ids) (VNum (Z.of_nat n)) 0 [] h
     = (Ok (map noteOf ids),
        h ++ map (fun c => EvRequest (notes_request c)) (batches ids))
  /\ List.length (batches ids) = ((n + 4) / 5)%nat
  /\ map (@List.length value) (batches ids)
     = repeat 5%nat (n / 5)
       ++ (if (n mod 5 =? 0)%nat then [] else [(n mod 5)%nat])
  /\ List.concat (batches ids) = ids
  /\ List.length (map noteOf ids) = n
  /\ (forall cards,
        map_outcome cardInfo (map noteOf ids) = Ok cards ->
        List.length cards = n)
  /\ (forall uri group deckName,
        match_deck_uri uri = Some group ->
        decodeURIComponent group = Some deckName ->
        settle "findNotes" (backend h (find_request deckName)) = Ok (VArr ids) ->
        snd (readResource uri h)
        = h ++ EvRequest (find_request deckName)
            :: map (fun c => EvRequest (notes_request c)) (batches ids)).
Proof.
  intros Hback n. repeat split.
  - exact (fetchNotes_from noteOf ids Hback ((n + 4) / 5) 0 [] h eq_refl).
  - unfold batches. rewrite length_map, length_seq. reflexivity.
  - apply sizes_batches.
  - apply concat_batches.
  - apply length_map.
  - intros cards Hc. rewrite (map_outcome_length _ _ _ Hc). apply length_map.
  - intros uri group deckName. apply (readResource_requests noteOf); exact Hback.
Qed.

(** The projection of a Cloze note that has both of its fields. *)
Lemma cardInfo_cloze props ids fs Text BackExtra :
  lookup "modelName" props = VStr "Cloze" ->
  lookup "cards" props = VArr ids ->
  lookup "fields" props = VObj fs ->
  lookup "Text" fs = VObj Text ->
  lookup "Back Extra" fs = VObj BackExtra ->
  cardInfo (VObj props)
  = Ok (mkCard (nth 0 ids VUndefined)
          (lookup "value" Text)
          (if truthy (lookup "value" BackExtra) then lookup "value" BackExtra
           else VStr "[Cloze deletion]")
          (lookup "tags" props)).
Proof.
  intros Hm Hc Hf Ht Hb. unfold cardInfo. cbn [get_prop and_then].
  rewrite Hm. cbn [is_str String.eqb Ascii.eqb Bool.eqb].
  rewrite Hc. cbn [get_index and_then]. rewrite Hf. cbn [get_prop and_then].
  rewrite Ht, Hb. reflexivity.
Qed.

(** The projection of a Basic note that has both of its fields. *)
Lemma cardInfo_basic props ids fs F B :
  lookup "modelName" props = VStr "Basic" ->
  lookup "cards" props = VArr ids ->
  lookup "fields" props = VObj fs ->
  lookup "Front" fs = VObj F ->
  lookup "Back" fs = VObj B ->
  cardInfo (VObj props)
  = Ok (mkCard (nth 0 ids VUndefined) (lookup "value" F) (lookup "value" B)
          (lookup "tags" props)).
Proof.
  intros Hm Hc Hf HF HB. unfold cardInfo. cbn [get_prop and_then].
  rewrite Hm. cbn [is_str String.eqb Ascii.eqb Bool.eqb].
  rewrite Hc. cbn [get_index and_then]. rewrite Hf. cbn [get_prop and_then].
  rewrite HF, HB. reflexivity.
Qed.

(** C4, at the place where the code departs from it: for a Cloze note whose
    fields hold "Text" but no "Back Extra", the projection does not yield the
    placeholder back; reading [.value] of the missing field throws. *)
Theorem cardInfo_cloze_without_back_extra props ids fs Text :
  lookup "modelName" props = VStr "Cloze" ->
  lookup "cards" props = VArr ids ->
  lookup "fields" props = VObj fs ->
  lookup "Text" fs = VObj Text ->
  has_key "Back Extra" fs = false ->
  cardInfo (VObj props)
  = Throw (TypeError "Cannot read properties of undefined (reading 'value')").
Proof.
  intros Hm Hc Hf Ht Hb.
  assert (Hl : lookup "Back Extra" fs = VUndefined).
  { clear -Hb. induction fs as [|[k v] fs IH]; [reflexivity|].
    unfold has_key in *. cbn [existsb fst lookup] in *.
    destruct (String.eqb "Back Extra" k); [discriminate|].
    apply IH, Hb. }
  unfold cardInfo. cbn [get_prop and_then].
  rewrite Hm. cbn [is_str String.eqb Ascii.eqb Bool.eqb].
  rewrite Hc. cbn [get_index and_then]. rewrite Hf. cbn [get_prop and_then].
  rewrite Ht, Hl. reflexivity.
Qed.

Lemma get_prop_not_offtype v k : get_prop v k <> OffType.
Proof.
  destruct v; cbn; try discriminate;
    destruct (String.eqb k "length"); discriminate.
Qed.

Lemma get_index_not_offtype v i : get_index v i <> OffType.
Proof.
  destruct v; cbn; try discriminate. destruct (get i s); discriminate.
Qed.


(** ** Further properties of the request pipeline *)

Lemma backoff_more r n delay :
  backoff r (S (S n)) delay
  = EvRequest r :: EvSleep delay :: backoff r (S n) (delay * 2).
Proof. reflexivity. Qed.

Lemma retry_shape action params retries :
  forall n k delay h,
    Z.of_nat k + Z.of_nat n = retries ->
    exists m, (m <= n)%nat /\ (1 <= n -> 1 <= m)%nat
      /\ snd (retry action params retries (map Z.of_nat (seq (S k) n)) delay h)
         = h ++ backoff (mkRequest action 6 params) m delay.
Proof.
  induction n as [|n IH]; intros k delay h Hk.
  - exists 0%nat. cbn. rewrite app_nil_r. repeat split; lia.
  - cbn [seq map].
    destruct (settle action (backend h (mkRequest action 6 params)))
      as [a|e|] eqn:Hs.
    + exists 1%nat. rewrite (retry_ok _ _ _ _ _ _ _ _ Hs).
      repeat split; lia.
    + destruct (Z.eq_dec (Z.of_nat (S k)) retries) as [E|Hne].
      * exists 1%nat. rewrite E, (retry_last _ _ _ _ _ _ _ Hs).
        repeat split; lia.
      * rewrite (retry_again _ _ _ _ _ _ _ e Hs Hne).
        destruct n as [|n]; [lia|].
        destruct (IH (S k) (delay * 2)
                    (h ++ [EvRequest (mkRequest action 6 params); EvSleep delay])
                    ltac:(lia))
          as (m & Hm & Hpos & Hrun).
        destruct m as [|m]; [lia|].
        exists (S (S m)). rewrite Hrun, backoff_more, <- app_assoc.
        repeat split; lia.
    + exfalso. exact (settle_not_offtype _ _ Hs).
Qed.

(** X1: whatever the backend answers, what [ankiRequest] adds to the history
    is the same request sent [m] times with the doubling sleeps between two
    consecutive sends, for some [m] that is at most [retries] and at least 1
    when [retries] is: never another request, never more than [retries]
    sends, never a sleep after the last send. *)
Theorem ankiRequest_history_shape action params retries delay h :
  exists m,
    (m <= Z.to_nat retries)%nat
    /\ (1 <= retries -> (1 <= m)%nat)
    /\ snd (ankiRequest action params retries delay h)
       = h ++ backoff (mkRequest action 6 params) m delay
    /\ requests (backoff (mkRequest action 6 params) m delay)
       = repeat (mkRequest action 6 params) m
    /\ sleeps (backoff (mkRequest action 6 params) m delay)
       = map (fun i => delay * 2 ^ Z.of_nat i) (seq 0 (m - 1)).
Proof.
  unfold ankiRequest, attempts.
  destruct (Z.le_gt_cases 1 retries) as [Hr|Hr].
  - destruct (retry_shape action params retries (Z.to_nat retries) 0 delay h
                ltac:(lia)) as (m & Hm & Hpos & Hrun).
    exists m. repeat split; trivial.
    + intros _. apply Hpos. lia.
    + apply requests_backoff.
    + apply sleeps_backoff.
  - exists 0%nat. replace (Z.to_nat retries) with 0%nat by lia.
    cbn. rewrite app_nil_r. repeat split; lia.
Qed.

(** X2: when the first [k] attempts fail and the next one succeeds, with
    [k] smaller than [retries], [ankiRequest] returns the result of that
    attempt after [k + 1] sends and [k] sleeps. *)
Theorem ankiRequest_recovers action params retries delay :
  forall k h result,
    Z.of_nat k < retries ->
    (forall j, (j < k)%nat ->
       exists e,
         settle action
           (backend (before_last h (mkRequest action 6 params) (S j) delay)
              (mkRequest action 6 params)) = Throw e) ->
    settle action
      (backend (before_last h (mkRequest action 6 params) (S k) delay)
         (mkRequest action 6 params)) = Ok result ->
    ankiRequest action params retries delay h
    = (Ok result, h ++ backoff (mkRequest action 6 params) (S k) delay).
Proof.
  intros k h result Hk. unfold ankiRequest, attempts.
  assert (Hgen : forall k a n delay h,
             Z.of_nat a + Z.of_nat (S n) = retries -> (k <= n)%nat ->
             (forall j, (j < k)%nat ->
                exists e,
                  settle action
                    (backend (before_last h (mkRequest action 6 params)
                                (S j) delay)
                       (mkRequest action 6 params)) = Throw e) ->
             settle action
               (backend (before_last h (mkRequest action 6 params) (S k) delay)
                  (mkRequest action 6 params)) = Ok result ->
             retry action params retries (map Z.of_nat (seq (S a) (S n))) delay h
             = (Ok result, h ++ backoff (mkRequest action 6 params) (S k) delay)).
  { clear. induction k as [|k IH]; intros a n delay h Ha Hkn Hfail Hok.
    - unfold before_last in Hok. cbn [backoff removelast] in Hok.
      rewrite app_nil_r in Hok. cbn [seq map]. apply retry_ok, Hok.
    - destruct n as [|n]; [lia|].
      destruct (Hfail 0%nat ltac:(lia)) as [e He].
      unfold before_last in He. cbn [backoff removelast] in He.
      rewrite app_nil_r in He.
      cbn [seq map]. rewrite (retry_again _ _ _ _ _ _ _ e He) by lia.
      change (Z.of_nat (S (S a)) :: map Z.of_nat (seq (S (S (S a))) n))
        with (map Z.of_nat (seq (S (S a)) (S n))).
      rewrite (IH (S a) n) ; try lia.
      + rewrite backoff_more, <- app_assoc. reflexivity.
      + intros j Hj. destruct (Hfail (S j) ltac:(lia)) as [e' He'].
        exists e'. unfold before_last in *.
        rewrite backoff_more in He'. cbn [removelast] in He'.
        rewrite <- app_assoc. exact He'.
      + unfold before_last in *.
        rewrite backoff_more in Hok. cbn [removelast] in Hok.
        rewrite <- app_assoc. exact Hok. }
  intros Hfail Hok.
  destruct (Z.to_nat retries) as [|n] eqn:Hn; [lia|].
  apply (Hgen k 0%nat n); trivial; lia.
Qed.

(** X3: with [retries] below 1 nothing is sent; the call fails at once with
    "Failed after [retries] attempts". *)
Theorem ankiRequest_no_attempts action params retries delay h :
  retries <= 0 ->
  ankiRequest action params retries delay h
  = (Throw (Error ("Failed after " +++ string_of_Z retries +++ " attempts")), h).
Proof.
  intros Hr. unfold ankiRequest, attempts.
  replace (Z.to_nat retries) with 0%nat by lia. reflexivity.
Qed.

Lemma settle_ok_not_nullish action r result :
  settle action r = Ok result -> nullish result = false.
Proof.
  destruct r as [m|sc body]; cbn; [discriminate|].
  destruct (negb (sc =? 200)); [discriminate|].
  destruct (JSON_parse body) as [p|]; [|discriminate].
  destruct (get_prop p "error") as [e| |]; try discriminate.
  destruct (truthy e); [discriminate|].
  destruct (get_prop p "result") as [res| |]; try discriminate.
  destruct (nullish res) eqn:Hn.
  - destruct (_ || _); [|discriminate]. intros [= <-]. reflexivity.
  - intros [= <-]. exact Hn.
Qed.

Lemma retry_ok_not_nullish action params retries remaining :
  forall delay h result,
    fst (retry action params retries remaining delay h) = Ok result ->
    nullish result = false.
Proof.
  induction remaining as [|attempt rest IH]; intros delay h result;
    cbn [retry]; [discriminate|].
  unfold try_catch at 1. rewrite attempt_run.
  destruct (settle action _) as [a|e|] eqn:Hs.
  - intros [= <-]. exact (settle_ok_not_nullish _ _ _ Hs).
  - destruct (attempt =? retries); [discriminate|].
    unfold bind, sleep. apply IH.
  - discriminate.
Qed.

(** X4: a value that [ankiRequest] returns is never [null] or [undefined]:
    a null result either fails the call or comes back as the empty object,
    so the handlers may read properties of what they get. *)
Theorem ankiRequest_result_not_null action params retries delay h result :
  fst (ankiRequest action params retries delay h) = Ok result ->
  nullish result = false
  /\ exists v, get_prop result "length" = Ok v.
Proof.
  intros H. apply retry_ok_not_nullish in H. split; [exact H|].
  destruct result; try discriminate; cbn; eauto.
Qed.

(** X5: a 200 response whose body is valid JSON but parses to [null] counts
    as unparseable: each attempt fails with "Failed to parse AnkiConnect
    response", and the call ends with that error after all its attempts. *)
Theorem null_body_is_a_parse_failure action params retries delay h body :
  1 <= retries ->
  JSON_parse body = Some VNull ->
  (forall h', backend h' (mkRequest action 6 params) = Http 200 body) ->
  settle action (Http 200 body) = Throw (parse_failure body)
  /\ ankiRequest action params retries delay h
     = (Throw (parse_failure body),
        h ++ backoff (mkRequest action 6 params) (Z.to_nat retries) delay).
Proof.
  intros Hr Hnull Hback.
  assert (Hs : settle action (Http 200 body) = Throw (parse_failure body)).
  { cbn. rewrite Hnull. reflexivity. }
  split; [exact Hs|].
  rewrite ankiRequest_exhausts; trivial.
  - rewrite Hback, Hs. reflexivity.
  - intros h'. rewrite Hback. eauto.
Qed.

(** ** Further properties of the tool handlers *)

Lemma ankiRequest__ok action params h result :
  settle action (backend h (mkRequest action 6 params)) = Ok result ->
  ankiRequest_ action params h
  = (Ok result, h ++ [EvRequest (mkRequest action 6 params)]).
Proof.
  intros Hs. unfold ankiRequest_, ankiRequest.
  change (attempts 3) with [1; 2; 3]. apply retry_ok, Hs.
Qed.

Lemma settle_throws_Error action r e :
  settle action r = Throw e -> exists m, e = Error m.
Proof.
  destruct r as [m|sc body]; cbn; [intros [= <-]; eauto|].
  destruct (negb (sc =? 200)); [intros [= <-]; eauto|].
  destruct (JSON_parse body) as [p|];
    [|intros [= <-]; unfold parse_failure; eauto].
  destruct (get_prop p "error") as [err| |];
    try (intros [= <-]; unfold parse_failure; eexists; reflexivity).
  destruct (truthy err); [intros [= <-]; eauto|].
  destruct (get_prop p "result") as [res| |];
    try (intros [= <-]; unfold parse_failure; eexists; reflexivity).
  destruct (nullish res); [|discriminate].
  destruct (_ || _); [discriminate|intros [= <-]; eauto].
Qed.

Lemma report_ZodError errors h :
  report (ZodError errors) h = (Throw (invalid_arguments errors), h).
Proof. reflexivity. Qed.

Lemma callTool_rejects name args h :
  issues name args <> [] ->
  callTool name args h = (Throw (invalid_arguments (issues name args)), h).
Proof.
  unfold issues, callTool, try_catch.
  repeat match goal with
         | |- context [String.eqb name ?t] => destruct (String.eqb name t)
         end;
    try (intros H; exfalso; apply H; reflexivity);
    unfold create_deck, create_card, update_card, create_cloze_card,
      update_cloze_card;
    match goal with
    | |- context [parse ?r] =>
        destruct r as [errors|a]; cbn [issues_of parse];
        [intros _; rewrite bind_throw; reflexivity
        |intros H; exfalso; apply H; reflexivity]
    end.
Qed.

(** X6: arguments that the schema of the tool rejects never reach the
    backend: the call fails with "Invalid arguments: " followed by the issues
    (path and message, joined by ", "), and nothing is sent. *)
Theorem invalid_arguments_send_nothing name args h :
  issues name args <> [] ->
  callTool name args h = (Throw (invalid_arguments (issues name args)), h).
Proof. apply callTool_rejects. Qed.

Lemma z_and_issue_l {A B} (a : zres A) (b : zres B) x :
  In x (issues_of a) -> In x (issues_of (z_and a b)).
Proof.
  clear JSON_parse decodeURIComponent backend.
  destruct a as [e|u], b as [e'|v]; cbn; try tauto.
  intros H. apply in_or_app. left. exact H.
Qed.

Lemma z_and_issue_r {A B} (a : zres A) (b : zres B) x :
  In x (issues_of b) -> In x (issues_of (z_and a b)).
Proof.
  clear JSON_parse decodeURIComponent backend.
  destruct a as [e|u], b as [e'|v]; cbn; try tauto.
  intros H. apply in_or_app. right. exact H.
Qed.

Lemma required_string path : In (path, "Required") (issues_of (z_string path VUndefined)).
Proof. left. reflexivity. Qed.

Lemma required_string_min1 path :
  In (path, "Required") (issues_of (z_string_min1 path VUndefined)).
Proof. left. reflexivity. Qed.

Lemma required_number path : In (path, "Required") (issues_of (z_number path VUndefined)).
Proof. left. reflexivity. Qed.

Lemma missing_required t k props :
  In t tools -> In k (tool_required t) -> lookup k props = VUndefined ->
  In ([k], "Required") (issues (tool_name t) (VObj props)).
Proof.
  clear JSON_parse decodeURIComponent backend.
  intros Ht Hk Hl. cbn in Ht.
  repeat (destruct Ht as [<-|Ht]; [|]); try contradiction; cbn in Hk;
    repeat (destruct Hk as [<-|Hk]; [|]); try contradiction;
    cbv [issues tool_name]; cbn [String.eqb Ascii.eqb Bool.eqb];
    cbv [CreateDeckArgumentsSchema CreateCardArgumentsSchema
         UpdateCardArgumentsSchema CreateClozeCardArgumentsSchema
         UpdateClozeCardArgumentsSchema z_object];
    rewrite Hl;
    auto using z_and_issue_l, z_and_issue_r, required_string,
      required_string_min1, required_number.
Qed.

(** X7: the keys that the tool list advertises as [required] are required by
    the schemas of the handler.  For every advertised tool, arguments that
    lack one of its required keys, or that are no object at all, are rejected
    with an "Invalid arguments" error that names the key, before anything is
    sent. *)
Theorem required_keys_are_enforced t h :
  In t tools ->
  (forall k props,
      In k (tool_required t) -> lookup k props = VUndefined ->
      In ([k], "Required") (issues (tool_name t) (VObj props))
      /\ callTool (tool_name t) (VObj props) h
         = (Throw (invalid_arguments (issues (tool_name t) (VObj props))), h))
  /\ (forall args,
        (forall props, args <> VObj props) ->
        callTool (tool_name t) args h
        = (Throw (invalid_arguments (issues (tool_name t) args)), h)).
Proof.
  clear decodeURIComponent.
  intros Ht. split.
  - intros k props Hk Hl.
    pose proof (missing_required t k props Ht Hk Hl) as Hin.
    split; [exact Hin|]. apply callTool_rejects.
    intros E. rewrite E in Hin. exact Hin.
  - intros args Hargs. apply callTool_rejects.
    cbn in Ht.
    repeat (destruct Ht as [<-|Ht]; [|]); try contradiction;
      cbv [issues tool_name]; cbn [String.eqb Ascii.eqb Bool.eqb];
      cbv [CreateDeckArgumentsSchema CreateCardArgumentsSchema
           UpdateCardArgumentsSchema CreateClozeCardArgumentsSchema
           UpdateClozeCardArgumentsSchema z_object];
      destruct args; try discriminate;
      exfalso; eapply Hargs; reflexivity.
Qed.

(** X8: a tool name that the tool list does not advertise is answered with
    "Unknown tool: " and the name, whatever the arguments, and nothing is
    sent. *)
Theorem unknown_tool_sends_nothing name args h :
  ~ In name (map tool_name tools) ->
  callTool name args h = (Throw (Error ("Unknown tool: " +++ name)), h).
Proof.
  clear decodeURIComponent.
  intros Hn. unfold callTool, try_catch.
  repeat match goal with
         | |- context [String.eqb name ?t] =>
             destruct (String.eqb_spec name t) as [E|_];
             [exfalso; apply Hn; rewrite E; cbn; tauto|]
         end.
  reflexivity.
Qed.

Lemma note_of_card_none cardId h h1 :
  ankiRequest_ "cardsToNotes" (VObj [("cards", VArr [VNum cardId])]) h
  = (Ok (VArr []), h1) ->
  note_of_card cardId h
  = (Throw (Error ("No note found for card " +++ string_of_Z cardId)), h1).
Proof.
  intros Hrun. unfold note_of_card. rewrite (bind_run _ _ _ _ _ Hrun).
  reflexivity.
Qed.

Lemma note_of_card_found cardId h noteId more :
  settle "cardsToNotes" (backend h (cards_request cardId))
  = Ok (VArr (noteId :: more)) ->
  note_of_card cardId h = (Ok noteId, h ++ [EvRequest (cards_request cardId)]).
Proof.
  intros Hs. unfold note_of_card.
  rewrite (bind_run _ _ _ _ _ (ankiRequest__ok _ _ _ _ Hs)).
  cbn [get_prop String.eqb Ascii.eqb Bool.eqb]. rewrite bind_lift_ok.
  assert (is_num (VNum (Z.of_nat (List.length (noteId :: more)))) 0 = false)
    as ->.
  { cbn [is_num List.length]. apply Z.eqb_neq. lia. }
  reflexivity.
Qed.

(** X9: when cardsToNotes finds no note for the card (an empty array),
    update-card and update-cloze-card fail with "No note found for card "
    and the card id; between the call and the error only that lookup is
    sent. *)
Theorem card_without_note_is_not_updated :
  (forall args cardId front back tags h h1,
      UpdateCardArgumentsSchema args = inr (cardId, front, back, tags) ->
      ankiRequest_ "cardsToNotes" (VObj [("cards", VArr [VNum cardId])]) h
      = (Ok (VArr []), h1) ->
      callTool "update-card" args h
      = (Throw (Error ("No note found for card " +++ string_of_Z cardId)), h1)
      /\ exists evs,
           h1 = h ++ evs /\ Forall (eq (cards_request cardId)) (requests evs))
  /\ (forall args cardId text backExtra tags h h1,
        UpdateClozeCardArgumentsSchema args = inr (cardId, text, backExtra, tags) ->
        ankiRequest_ "cardsToNotes" (VObj [("cards", VArr [VNum cardId])]) h
        = (Ok (VArr []), h1) ->
        callTool "update-cloze-card" args h
        = (Throw (Error ("No note found for card " +++ string_of_Z cardId)), h1)
        /\ exists evs,
             h1 = h ++ evs /\ Forall (eq (cards_request cardId)) (requests evs)).
Proof.
  split; intros args cardId a b tags h h1 Hargs Hrun; (split;
    [|exact (extends_by (eq (cards_request cardId)) _ _ _ _
               (emits_ankiRequest _ "cardsToNotes" _ 3 1000 eq_refl) Hrun)]).
  - rewrite callTool_update_card. unfold try_catch, update_card.
    rewrite Hargs. cbn [parse]. rewrite bind_ret.
    unfold bind at 1. rewrite (note_of_card_none _ _ _ Hrun). reflexivity.
  - rewrite callTool_update_cloze_card. unfold try_catch, update_cloze_card.
    rewrite Hargs. cbn [parse]. rewrite bind_ret.
    unfold bind at 1. rewrite (note_of_card_none _ _ _ Hrun). reflexivity.
Qed.

Lemma updateNoteFields_ok noteId fields h v :
  settle "updateNoteFields" (backend h (fields_request noteId fields)) = Ok v ->
  updateNoteFields noteId fields h
  = (Ok tt, h ++ [EvRequest (fields_request noteId fields)]).
Proof.
  intros Hs. unfold updateNoteFields.
  rewrite (bind_run _ _ _ _ _ (ankiRequest__ok _ _ _ _ Hs)). reflexivity.
Qed.

Lemma replaceTags_ok noteId t h v :
  settle "replaceTags" (backend h (tags_request noteId t)) = Ok v ->
  replaceTags noteId (Some t) h
  = (Ok tt, h ++ [EvRequest (tags_request noteId t)]).
Proof.
  intros Hs. unfold replaceTags.
  rewrite (bind_run _ _ _ _ _ (ankiRequest__ok _ _ _ _ Hs)). reflexivity.
Qed.

(** X10: when the backend answers every request of update-card, the tool
    sends, in this order, the cardsToNotes lookup, one updateNoteFields with
    the non-empty front and back (when there is one), and one replaceTags with
    the tags joined by spaces (when tags are given, an empty list included,
    which sends the empty string), and reports success. *)
Theorem update_card_sends_fields_then_tags
    args cardId front back tags h noteId more :
  UpdateCardArgumentsSchema args = inr (cardId, front, back, tags) ->
  (forall h', settle "cardsToNotes" (backend h' (cards_request cardId))
              = Ok (VArr (noteId :: more))) ->
  (forall h' r, action r = "updateNoteFields" \/ action r = "replaceTags" ->
                exists v, settle (action r) (backend h' r) = Ok v) ->
  callTool "update-card" args h
  = (Ok ("Successfully updated card " +++ string_of_Z cardId),
     h ++ [EvRequest (cards_request cardId)]
       ++ (if given front || given back
           then [EvRequest (fields_request noteId
                              (field_if "Front" front ++ field_if "Back" back))]
           else [])
       ++ match tags with
          | Some t => [EvRequest (tags_request noteId t)]
          | None => []
          end).
Proof.
  intros Hargs Hcards Hwrite.
  rewrite callTool_update_card. unfold try_catch, update_card.
  rewrite Hargs. cbn [parse]. rewrite bind_ret.
  rewrite (bind_run _ _ _ _ _ (note_of_card_found _ _ _ _ (Hcards h))).
  set (h1 := h ++ [EvRequest (cards_request cardId)]).
  set (fields := field_if "Front" front ++ field_if "Back" back).
  assert (Hfields :
            when (given front || given back) (updateNoteFields noteId fields) h1
            = (Ok tt,
               h1 ++ (if given front || given back
                      then [EvRequest (fields_request noteId fields)]
                      else []))).
  { destruct (given front || given back); cbn [when].
    - destruct (Hwrite h1 (fields_request noteId fields) (or_introl eq_refl))
        as [v Hv].
      exact (updateNoteFields_ok _ _ _ _ Hv).
    - unfold ret. rewrite app_nil_r. reflexivity. }
  rewrite (bind_run _ _ _ _ _ Hfields).
  set (h2 := h1 ++ _).
  assert (Htags :
            replaceTags noteId tags h2
            = (Ok tt,
               h2 ++ match tags with
                     | Some t => [EvRequest (tags_request noteId t)]
                     | None => []
                     end)).
  { destruct tags as [t|].
    - destruct (Hwrite h2 (tags_request noteId t) (or_intror eq_refl))
        as [v Hv].
      exact (replaceTags_ok _ _ _ _ Hv).
    - cbn. rewrite app_nil_r. reflexivity. }
  rewrite (bind_run _ _ _ _ _ Htags).
  unfold ret, h2, h1. rewrite <- !app_assoc. reflexivity.
Qed.

(** X11: update-card is not atomic.  When the field update is accepted and
    the tag update is rejected on every attempt, the tool fails with the
    error of the tag update, the one of its third and last attempt, although
    the updateNoteFields request has been sent and answered: the fields stay
    changed. *)
Theorem update_card_is_not_atomic
    args cardId front back t h noteId more (message : history -> string) :
  UpdateCardArgumentsSchema args = inr (cardId, front, back, Some t) ->
  given front || given back = true ->
  (forall h', settle "cardsToNotes" (backend h' (cards_request cardId))
              = Ok (VArr (noteId :: more))) ->
  (forall h' fields,
      exists v, settle "updateNoteFields"
                  (backend h' (fields_request noteId fields)) = Ok v) ->
  (forall h',
      settle "replaceTags" (backend h' (tags_request noteId t))
      = Throw (Error (message h'))) ->
  callTool "update-card" args h
  = (Throw (Error
              (message
                 (before_last
                    (h ++ [EvRequest (cards_request cardId);
                           EvRequest (fields_request noteId
                                        (field_if "Front" front
                                         ++ field_if "Back" back))])
                    (tags_request noteId t) 3 1000))),
     h ++ [EvRequest (cards_request cardId);
           EvRequest (fields_request noteId
                        (field_if "Front" front ++ field_if "Back" back))]
       ++ backoff (tags_request noteId t) 3 1000).
Proof.
  intros Hargs Hgiven Hcards Hfields Htags.
  set (h2 := h ++ [EvRequest (cards_request cardId);
                   EvRequest (fields_request noteId
                                (field_if "Front" front ++ field_if "Back" back))]).
  pose proof (Htags (before_last h2 (tags_request noteId t) 3 1000)) as He.
  rewrite callTool_update_card. unfold try_catch, update_card.
  rewrite Hargs. cbn [parse]. rewrite bind_ret.
  rewrite (bind_run _ _ _ _ _ (note_of_card_found _ _ _ _ (Hcards h))).
  rewrite Hgiven. cbn [when].
  destruct (Hfields (h ++ [EvRequest (cards_request cardId)])
              (field_if "Front" front ++ field_if "Back" back)) as [v Hv].
  rewrite (bind_run _ _ _ _ _ (updateNoteFields_ok _ _ _ _ Hv)).
  rewrite <- app_assoc. cbn [app]. fold h2.
  unfold bind at 1. unfold replaceTags. unfold bind at 1.
  unfold ankiRequest_.
  rewrite (ankiRequest_exhausts "replaceTags" _ 3 1000 h2 ltac:(lia)
             (fun h' => ex_intro _ _ (Htags h'))).
  change (Z.to_nat 3) with 3%nat.
  unfold tags_request in He |- *. rewrite He.
  unfold h2. rewrite <- app_assoc. reflexivity.
Qed.

(** X12: without a tags argument, update-card and update-cloze-card never
    send replaceTags, whatever the backend answers: the tags of the note are
    left alone. *)
Theorem absent_tags_are_not_replaced :
  (forall args cardId front back h,
      UpdateCardArgumentsSchema args = inr (cardId, front, back, None) ->
      exists evs,
        snd (callTool "update-card" args h) = h ++ evs
        /\ requests_of "replaceTags" evs = [])
  /\ (forall args cardId text backExtra h,
        UpdateClozeCardArgumentsSchema args = inr (cardId, text, backExtra, None) ->
        exists evs,
          snd (callTool "update-cloze-card" args h) = h ++ evs
          /\ requests_of "replaceTags" evs = []).
Proof.
  set (P := fun r : request => action r <> "replaceTags").
  assert (Hnone : forall evs, Forall P (requests evs) ->
                              requests_of "replaceTags" evs = []).
  { intros evs H. apply (no_requests_of P); trivial. }
  split.
  - intros args cardId front back h Hargs.
    assert (Hem : emits P (callTool "update-card" args)).
    { rewrite callTool_update_card. unfold update_card.
      rewrite Hargs. cbn [parse]. rewrite bind_ret.
      apply emits_try_catch; [|apply emits_report].
      apply emits_bind; [apply emits_note_of_card; discriminate|intros noteId].
      apply emits_bind.
      - apply emits_when. intros _. apply emits_updateNoteFields. discriminate.
      - intros _. apply emits_bind; intros; apply emits_ret. }
    destruct (Hem h) as (evs & Hevs & HP). exists evs. auto.
  - intros args cardId text backExtra h Hargs.
    assert (Hem : emits P (callTool "update-cloze-card" args)).
    { rewrite callTool_update_cloze_card. unfold update_cloze_card.
      rewrite Hargs. cbn [parse]. rewrite bind_ret.
      apply emits_try_catch; [|apply emits_report].
      apply emits_bind; [apply emits_note_of_card; discriminate|intros noteId].
      apply emits_bind; [apply emits_ankiRequest; discriminate|intros noteInfo].
      apply emits_bind; [apply emits_pure|intros note].
      apply emits_bind; [apply emits_pure|intros modelName].
      destruct (negb _); [apply emits_throw|].
      apply emits_bind.
      - apply emits_when. intros _.
        apply emits_bind; [apply emits_text_field|intros fields].
        apply emits_updateNoteFields. discriminate.
      - intros _. apply emits_bind; intros; apply emits_ret. }
    destruct (Hem h) as (evs & Hevs & HP). exists evs. auto.
Qed.

Lemma text_field_accepts text h :
  (forall t, text = Some t -> t <> "" -> has_cloze t = true) ->
  text_field text h = (Ok (field_if "Text" text), h).
Proof.
  intros Hvalid. unfold text_field, field_if.
  destruct text as [t|]; [|reflexivity].
  destruct (given (Some t)) eqn:Hg; [|reflexivity].
  rewrite (has_cloze_true t); [reflexivity|].
  apply Hvalid; [reflexivity|].
  cbn in Hg. apply negb_true_iff, String.eqb_neq in Hg. exact Hg.
Qed.

(** X13: when the backend answers every request of update-cloze-card and
    the note is a Cloze note, the tool sends the two lookups, then one
    updateNoteFields when text or backExtra is non-empty, then replaceTags
    when tags are given.  The fields sent are "Text" for a non-empty text and
    "Back Extra" for every backExtra that is given: an empty backExtra clears
    the field when a non-empty text comes with it, and is dropped when it
    comes alone. *)
Theorem update_cloze_card_sends_fields_then_tags
    args cardId text backExtra tags h noteId more note others :
  UpdateClozeCardArgumentsSchema args = inr (cardId, text, backExtra, tags) ->
  (forall t, text = Some t -> t <> "" -> has_cloze t = true) ->
  (forall h', settle "cardsToNotes" (backend h' (cards_request cardId))
              = Ok (VArr (noteId :: more))) ->
  (forall h', settle "notesInfo" (backend h' (notes_request [noteId]))
              = Ok (VArr (note :: others))) ->
  get_prop note "modelName" = Ok (VStr "Cloze") ->
  (forall h' r, action r = "updateNoteFields" \/ action r = "replaceTags" ->
                exists v, settle (action r) (backend h' r) = Ok v) ->
  callTool "update-cloze-card" args h
  = (Ok ("Successfully updated cloze card " +++ string_of_Z cardId),
     h ++ [EvRequest (cards_request cardId);
           EvRequest (notes_request [noteId])]
       ++ (if given text || given backExtra
           then [EvRequest (fields_request noteId
                              (field_if "Text" text
                               ++ back_extra_field backExtra))]
           else [])
       ++ match tags with
          | Some t => [EvRequest (tags_request noteId t)]
          | None => []
          end).
Proof.
  intros Hargs Hvalid Hcards Hinfo Hmodel Hwrite.
  pose proof (note_of_card_found _ _ _ _ (Hcards h)) as Hnote.
  pose proof (ankiRequest__ok _ _ _ _
                (Hinfo (h ++ [EvRequest (cards_request cardId)]))) as Hrun.
  destruct (update_cloze_card_checked _ _ _ _ _ _ _ _ _ _ _ _
              Hargs Hnote Hrun eq_refl Hmodel) as (Hcall & _).
  rewrite callTool_update_cloze_card. unfold try_catch. rewrite Hcall.
  cbn [is_str String.eqb Ascii.eqb Bool.eqb negb].
  rewrite <- app_assoc. cbn [app].
  set (h1 := h ++ [EvRequest (cards_request cardId);
                   EvRequest (notes_request [noteId])]).
  change (h ++ [EvRequest (cards_request cardId);
                EvRequest {| action := "notesInfo"; version := 6;
                             params := VObj [("notes", VArr [noteId])] |}])
    with h1.
  set (fields := field_if "Text" text ++ back_extra_field backExtra).
  assert (Hfields :
            when (given text || given backExtra)
              (textField <- text_field text ;;
               updateNoteFields noteId (textField ++ back_extra_field backExtra))
              h1
            = (Ok tt,
               h1 ++ (if given text || given backExtra
                      then [EvRequest (fields_request noteId fields)]
                      else []))).
  { destruct (given text || given backExtra); cbn [when].
    - rewrite (bind_run _ _ _ _ _ (text_field_accepts text h1 Hvalid)).
      destruct (Hwrite h1 (fields_request noteId fields) (or_introl eq_refl))
        as [v Hv].
      exact (updateNoteFields_ok _ _ _ _ Hv).
    - unfold ret. rewrite app_nil_r. reflexivity. }
  rewrite (bind_run _ _ _ _ _ Hfields).
  set (h2 := h1 ++ _).
  assert (Htags :
            replaceTags noteId tags h2
            = (Ok tt,
               h2 ++ match tags with
                     | Some t => [EvRequest (tags_request noteId t)]
                     | None => []
                     end)).
  { destruct tags as [t|].
    - destruct (Hwrite h2 (tags_request noteId t) (or_intror eq_refl))
        as [v Hv].
      exact (replaceTags_ok _ _ _ _ Hv).
    - cbn. rewrite app_nil_r. reflexivity. }
  rewrite (bind_run _ _ _ _ _ Htags).
  unfold ret, h2, h1. rewrite <- !app_assoc. reflexivity.
Qed.

Lemma callTool_create_card args :
  callTool "create-card" args = try_catch (create_card args) report.
Proof. reflexivity. Qed.

Lemma callTool_create_deck args :
  callTool "create-deck" args = try_catch (create_deck args) report.
Proof. reflexivity. Qed.

(** X14: create-card checks the types of its arguments and nothing else:
    every deck name, front and back, the empty string included, goes out in
    one addNote request for a "Basic" note with the fields "Front" and "Back"
    and the given tags (none when absent), and the tool reports success as
    soon as the backend returns a result. *)
Theorem create_card_sends_basic_note args deckName front back tags h :
  CreateCardArgumentsSchema args = inr (deckName, front, back, tags) ->
  (exists rest,
      snd (callTool "create-card" args h)
      = h ++ EvRequest (basic_note_request deckName front back tags) :: rest)
  /\ (forall v,
        settle "addNote"
          (backend h (basic_note_request deckName front back tags)) = Ok v ->
        callTool "create-card" args h
        = (Ok ("Successfully created new card in deck " +++ dq +++ deckName +++ dq),
           h ++ [EvRequest (basic_note_request deckName front back tags)])).
Proof.
  intros Hargs. rewrite callTool_create_card. unfold create_card.
  rewrite Hargs. cbn [parse]. rewrite bind_ret. split.
  - apply ankiRequest_then_starts.
  - intros v Hv. unfold try_catch.
    rewrite (bind_run _ _ _ _ _ (ankiRequest__ok _ _ _ _ Hv)). reflexivity.
Qed.

(** X15: create-deck sends createDeck exactly for a name that is a non-empty
    string: such a name goes out as [{deck: name}] and success is reported
    when the backend returns a result; the empty string is rejected with an
    "Invalid arguments" error and nothing is sent. *)
Theorem create_deck_needs_a_name props h :
  (forall name,
      lookup "name" props = VStr name -> name <> "" ->
      (exists rest,
          snd (callTool "create-deck" (VObj props) h)
          = h ++ EvRequest (mkRequest "createDeck" 6 (VObj [("deck", VStr name)]))
              :: rest)
      /\ (forall v,
            settle "createDeck"
              (backend h (mkRequest "createDeck" 6 (VObj [("deck", VStr name)])))
            = Ok v ->
            callTool "create-deck" (VObj props) h
            = (Ok ("Successfully created new deck " +++ dq +++ name +++ dq),
               h ++ [EvRequest (mkRequest "createDeck" 6
                                  (VObj [("deck", VStr name)]))])))
  /\ (lookup "name" props = VStr "" ->
      callTool "create-deck" (VObj props) h
      = (Throw (invalid_arguments
                  [(["name"], "String must contain at least 1 character(s)")]),
         h)).
Proof.
  split.
  - intros name Hl Hne.
    assert (Hargs : CreateDeckArgumentsSchema (VObj props) = inr name).
    { unfold CreateDeckArgumentsSchema, z_object, z_string_min1. rewrite Hl.
      apply String.eqb_neq in Hne. rewrite Hne. reflexivity. }
    rewrite callTool_create_deck. unfold create_deck.
    rewrite Hargs. cbn [parse]. rewrite bind_ret. split.
    + apply ankiRequest_then_starts.
    + intros v Hv. unfold try_catch.
      rewrite (bind_run _ _ _ _ _ (ankiRequest__ok _ _ _ _ Hv)). reflexivity.
  - intros Hl. rewrite callTool_rejects.
    + unfold issues. cbn [String.eqb Ascii.eqb Bool.eqb].
      unfold CreateDeckArgumentsSchema, z_object, z_string_min1. rewrite Hl.
      reflexivity.
    + unfold issues. cbn [String.eqb Ascii.eqb Bool.eqb].
      unfold CreateDeckArgumentsSchema, z_object, z_string_min1. rewrite Hl.
      discriminate.
Qed.

Lemma append_assoc (a b c : string) : (a +++ b) +++ c = a +++ b +++ c.
Proof. induction a as [|x a IH]; cbn; [reflexivity|]. rewrite IH. reflexivity. Qed.

Lemma substring_prefix_split t :
  forall s, substring 0 (String.length t) s = t -> exists b, s = t +++ b.
Proof.
  induction t as [|c t IH]; intros s; cbn.
  - intros _. exists s. reflexivity.
  - destruct s as [|c' s]; [discriminate|]. intros [= -> H].
    destruct (IH s H) as [b ->]. exists b. reflexivity.
Qed.

Lemma substring_split m :
  forall s t,
    substring m (String.length t) s = t -> exists a b, s = a +++ t +++ b.
Proof.
  induction m as [|m IH]; intros s t H.
  - destruct (substring_prefix_split t s H) as [b ->]. exists "", b. reflexivity.
  - destruct s as [|c s].
    + cbn in H. subst t. exists "", "". reflexivity.
    + cbn in H. destruct (IH s t H) as (a & b & ->).
      exists (String c a), b. reflexivity.
Qed.

Lemma substring_of_append a :
  forall t b,
    substring (String.length a) (String.length t) (a +++ t +++ b) = t.
Proof.
  induction a as [|c a IH]; intros t b; cbn.
  - revert b. induction t as [|c t IHt]; intros b; cbn.
    + destruct b; reflexivity.
    + rewrite IHt. reflexivity.
  - apply IH.
Qed.

Lemma includes_iff needle s :
  needle <> "" ->
  includes needle s = true <-> exists a b, s = a +++ needle +++ b.
Proof.
  intros Hne. unfold includes. split.
  - destruct (index 0 needle s) as [m|] eqn:E; [|discriminate]. intros _.
    exact (substring_split m s needle (index_correct1 _ _ _ _ E)).
  - intros (a & b & ->).
    destruct (index 0 needle (a +++ needle +++ b)) as [m|] eqn:E;
      [reflexivity|].
    exfalso.
    refine (index_correct3 0 (String.length a) _ _ E Hne (Nat.le_0_l _) _).
    apply substring_of_append.
Qed.

(** X16: the cloze validation of create-cloze-card and update-cloze-card
    accepts a text exactly when it holds "{{c" somewhere and "}}" somewhere.
    The two are looked for independently, so a text that closes before it
    opens is accepted as well. *)
Theorem has_cloze_iff text :
  (has_cloze text = true
   <-> (exists a b, text = a +++ "{{c" +++ b)
       /\ (exists a b, text = a +++ "}}" +++ b))
  /\ (forall a b c, has_cloze (a +++ "}}" +++ b +++ "{{c" +++ c) = true).
Proof.
  assert (Hiff : forall t,
             has_cloze t = true
             <-> (exists a b, t = a +++ "{{c" +++ b)
                 /\ (exists a b, t = a +++ "}}" +++ b)).
  { intros t. unfold has_cloze.
    rewrite andb_true_iff, !includes_iff by discriminate. reflexivity. }
  split; [apply Hiff|].
  intros a b c. apply Hiff. split.
  - exists (a +++ "}}" +++ b), c.
    rewrite !append_assoc. reflexivity.
  - exists a, (b +++ "{{c" +++ c). reflexivity.
Qed.

(** ** Further properties of the resource handlers *)

Lemma substring_all s : substring 0 (String.length s) s = s.
Proof. induction s as [|c s IH]; cbn; [reflexivity|]. rewrite IH. reflexivity. Qed.

Lemma prefix_append a b : prefix a (a +++ b) = true.
Proof.
  apply prefix_correct. exact (substring_of_append "" a b).
Qed.

Lemma substring_suffix a b :
  substring (String.length a) (String.length (a +++ b) - String.length a)
    (a +++ b) = b.
Proof.
  induction a as [|c a IH]; cbn.
  - rewrite Nat.sub_0_r. apply substring_all.
  - exact IH.
Qed.

Lemma match_deck_uri_iff uri group :
  match_deck_uri uri = Some group
  <-> uri = "anki://deck/" +++ group /\ group <> "" /\ one_line group = true.
Proof.
  unfold match_deck_uri, one_line. split.
  - destruct (prefix "anki://deck/" uri) eqn:Hp; [|discriminate].
    apply prefix_correct in Hp.
    destruct (substring_prefix_split "anki://deck/" uri Hp) as [b ->].
    cbn [String.length append substring Nat.sub].
    rewrite Nat.sub_0_r, substring_all.
    destruct (String.eqb_spec b ""); [discriminate|].
    cbn [negb andb].
    destruct (negb (existsb _ _)) eqn:Hl; [|discriminate].
    intros [= <-]. auto.
  - intros (-> & Hne & Hl).
    rewrite prefix_append.
    change 12%nat with (String.length "anki://deck/").
    rewrite substring_suffix.
    apply String.eqb_neq in Hne. rewrite Hne, Hl. reflexivity.
Qed.

(** X17: the deck reader accepts exactly the URIs made of "anki://deck/" and
    a non-empty rest without line terminator, and takes that rest as the
    encoded deck name.  Any other URI, and any rest that does not decode, is
    refused before anything is sent, with the message wrapped as every
    failure of the reader is. *)
Theorem deck_uri_is_checked_first uri h :
  (forall group,
      match_deck_uri uri = Some group
      <-> uri = "anki://deck/" +++ group
          /\ group <> "" /\ one_line group = true)
  /\ (match_deck_uri uri = None ->
      readResource uri h
      = (Throw (read_failure ("Invalid resource URI: " +++ uri)), h))
  /\ (forall group,
        match_deck_uri uri = Some group -> decodeURIComponent group = None ->
        readResource uri h = (Throw (read_failure "URI malformed"), h)).
Proof.
  split; [|split].
  - intros group. apply match_deck_uri_iff.
  - intros Hn. unfold readResource, try_catch, read_deck. rewrite Hn. reflexivity.
  - intros group Hm Hd. unfold readResource, try_catch, read_deck.
    rewrite Hm, Hd. reflexivity.
Qed.

(** X18: for a deck without notes (findNotes returns the empty array) the
    reader sends the findNotes query and nothing else, and answers "No notes
    found in this deck." under the name of the deck. *)
Theorem empty_deck_is_reported uri group deckName h :
  match_deck_uri uri = Some group ->
  decodeURIComponent group = Some deckName ->
  settle "findNotes" (backend h (find_request deckName)) = Ok (VArr []) ->
  readResource uri h
  = (Ok ("Deck: " +++ deckName +++ nl +++ nl +++ "No notes found in this deck."),
     h ++ [EvRequest (find_request deckName)]).
Proof.
  intros Huri Hdecode Hfind.
  unfold readResource, try_catch, read_deck. rewrite Huri, Hdecode.
  unfold find_request in Hfind.
  rewrite (bind_run _ _ _ _ _ (ankiRequest__ok _ _ _ _ Hfind)). reflexivity.
Qed.

(** The run of the deck reader over a deck that has notes, up to the
    projection and the rendering of the notes. *)
Lemma read_deck_run (noteOf : value -> value) ids uri group deckName h :
  (forall h' j,
      settle "notesInfo" (backend h' (notes_request (batch ids j)))
      = Ok (VArr (map noteOf (batch ids j)))) ->
  match_deck_uri uri = Some group ->
  decodeURIComponent group = Some deckName ->
  settle "findNotes" (backend h (find_request deckName)) = Ok (VArr ids) ->
  ids <> [] ->
  read_deck uri h
  = (cards <~ map_outcome cardInfo (map noteOf ids) ;;
     lines <~ map_outcome render cards ;;
     Ok ("Deck: " +++ deckName +++ nl +++ nl +++ String.concat nl lines),
     h ++ EvRequest (find_request deckName)
       :: map (fun c => EvRequest (notes_request c)) (batches ids)).
Proof.
  intros Hback Huri Hdecode Hfind Hids.
  unfold read_deck. rewrite Huri, Hdecode.
  unfold find_request in Hfind.
  rewrite (bind_run _ _ _ _ _ (ankiRequest__ok _ _ _ _ Hfind)).
  change (get_prop (VArr ids) "length")
    with (Ok (VNum (Z.of_nat (List.length ids)))).
  rewrite bind_lift_ok.
  assert (Hnum : is_num (VNum (Z.of_nat (List.length ids))) 0 = false).
  { destruct ids; [contradiction|]. cbn [is_num List.length].
    apply Z.eqb_neq. lia. }
  rewrite Hnum.
  pose proof (fetchNotes_from noteOf ids Hback
                ((List.length ids + 4) / 5) 0 []
                (h ++ [EvRequest (find_request deckName)]) eq_refl) as Hrun.
  change (Z.of_nat (5 * 0)) with 0 in Hrun.
  unfold find_request in Hrun |- *.
  rewrite (bind_run _ _ _ _ _ Hrun).
  fold (batches ids). rewrite <- app_assoc. cbn [app skipn Nat.mul].
  unfold bind, lift, ret, and_then.
  destruct (map_outcome cardInfo _) as [cards| |]; try reflexivity.
  destruct (map_outcome render cards) as [lines| |]; reflexivity.
Qed.

Lemma and_then_not_offtype {A B} (o : outcome A) (k : A -> outcome B) :
  o <> OffType -> (forall a, k a <> OffType) -> and_then o k <> OffType.
Proof. destruct o; cbn; auto; discriminate. Qed.

Lemma cardInfo_not_offtype note : cardInfo note <> OffType.
Proof.
  unfold cardInfo.
  apply and_then_not_offtype; [apply get_prop_not_offtype|intros modelName].
  destruct (is_str modelName "Cloze"); [|destruct (is_str modelName "Basic")];
    repeat (apply and_then_not_offtype;
            [apply get_prop_not_offtype || apply get_index_not_offtype
            |intros ?]);
    discriminate.
Qed.

Lemma map_outcome_first_failure {A B} (f : A -> outcome B) good a rest e :
  (forall x, In x good -> exists b, f x = Ok b) ->
  f a = Throw e ->
  map_outcome f (good ++ a :: rest) = Throw e.
Proof.
  intros Hgood Ha. induction good as [|x good IH]; cbn [app map_outcome].
  - rewrite Ha. reflexivity.
  - destruct (Hgood x (or_introl eq_refl)) as [b ->]. cbn [and_then].
    rewrite IH; [reflexivity|].
    intros y Hy. apply Hgood. right. exact Hy.
Qed.

(** X19: one note that cannot be projected makes the whole deck unreadable.
    When the notes of a deck have all been fetched and the projection of one
    of them throws (a Cloze note without "Back Extra", a note without its
    card list), the reader returns no card at all: it fails with the message
    of the error of the first such note, wrapped, after all its requests have
    been sent. *)
Theorem one_bad_note_fails_the_listing
    (noteOf : value -> value) ids uri group deckName h good note rest e :
  (forall h' j,
      settle "notesInfo" (backend h' (notes_request (batch ids j)))
      = Ok (VArr (map noteOf (batch ids j)))) ->
  match_deck_uri uri = Some group ->
  decodeURIComponent group = Some deckName ->
  settle "findNotes" (backend h (find_request deckName)) = Ok (VArr ids) ->
  map noteOf ids = good ++ note :: rest ->
  (forall n, In n good -> exists card, cardInfo n = Ok card) ->
  cardInfo note = Throw e ->
  readResource uri h
  = (Throw (read_failure (message_of e)),
     h ++ EvRequest (find_request deckName)
       :: map (fun c => EvRequest (notes_request c)) (batches ids)).
Proof.
  intros Hback Huri Hdecode Hfind Hnotes Hgood He.
  assert (Hids : ids <> []).
  { intros ->. destruct good; discriminate Hnotes. }
  unfold readResource, try_catch.
  rewrite (read_deck_run noteOf ids uri group deckName h
             Hback Huri Hdecode Hfind Hids), Hnotes.
  rewrite (map_outcome_first_failure cardInfo good note rest e Hgood He).
  reflexivity.
Qed.






Lemma fetchNotes_sends (P : request -> Prop) noteIds length i allNotes h :
  (forall chunk, P (mkRequest "notesInfo" 6 (VObj [("notes", chunk)]))) ->
  exists evs,
    snd (fetchNotes noteIds length i allNotes h) = h ++ evs
    /\ Forall P (requests evs).
Proof.
  intros HP.
  funelim (fetchNotes noteIds length i allNotes h);
    try (exists []; rewrite app_nil_r; split; [reflexivity|constructor]).
  - match goal with
    | E : ankiRequest_ _ _ _ = _,
      IH : forall Q : request -> Prop, _ -> exists _, _ |- _ =>
        destruct (IH P HP) as (evs2 & Hevs2 & Hsent2);
        destruct (extends_by P _ _ _ _
                    (emits_ankiRequest P "notesInfo" _ 3 1000 (HP _)) E)
          as (evs1 & Hevs1 & Hsent1)
    end.
    subst.
    exists (evs1 ++ evs2). rewrite Hevs2, app_assoc. split; [reflexivity|].
    rewrite requests_app. apply Forall_app. split; assumption.
  - match goal with
    | E : ankiRequest_ _ _ _ = _ |- _ =>
        exact (extends_by P _ _ _ _
                 (emits_ankiRequest P "notesInfo" _ 3 1000 (HP _)) E)
    end.
  - match goal with
    | E : ankiRequest_ _ _ _ = _ |- _ =>
        exact (extends_by P _ _ _ _
                 (emits_ankiRequest P "notesInfo" _ 3 1000 (HP _)) E)
    end.
Qed.

Lemma emits_read_deck (P : request -> Prop) uri :
  (forall r, action r = "findNotes" \/ action r = "notesInfo" -> P r) ->
  emits P (readResource uri).
Proof.
  intros HP. unfold readResource.
  apply emits_try_catch; [|intros; apply emits_throw].
  unfold read_deck.
  destruct (match_deck_uri uri) as [group|]; [|apply emits_throw].
  destruct (decodeURIComponent group) as [deckName|]; [|apply emits_throw].
  apply emits_bind;
    [apply emits_ankiRequest, HP; left; reflexivity|intros noteIds].
  apply emits_bind; [apply emits_pure|intros len].
  destruct (is_num len 0); [apply emits_ret|].
  apply emits_bind.
  - intros h. apply fetchNotes_sends. intros chunk. apply HP. right. reflexivity.
  - intros allNotes. apply emits_bind; [apply emits_pure|intros cards].
    apply emits_bind; [apply emits_pure|intros; apply emits_ret].
Qed.

Lemma emits_listResources (P : request -> Prop) encodeURIComponent :
  P (mkRequest "deckNames" 6 (VObj [])) ->
  emits P (listResources encodeURIComponent).
Proof.
  intros HP. unfold listResources.
  apply emits_try_catch; [|intros; apply emits_throw].
  apply emits_bind; [apply emits_ankiRequest, HP|intros decks].
  destruct decks; try apply emits_throw. apply emits_pure.
Qed.

(** X21: the resource handlers only read.  Whatever the backend answers and
    whatever the URI, listing the decks sends nothing but the deckNames
    request and reading a deck sends nothing but findNotes and notesInfo
    requests: no note, deck, field or tag is ever written. *)
Theorem resource_handlers_only_read encodeURIComponent uri h :
  (exists evs,
      snd (listResources encodeURIComponent h) = h ++ evs
      /\ Forall (eq (mkRequest "deckNames" 6 (VObj []))) (requests evs))
  /\ (exists evs,
        snd (readResource uri h) = h ++ evs
        /\ Forall (fun r => action r = "findNotes" \/ action r = "notesInfo")
             (requests evs)).
Proof.
  split.
  - apply emits_listResources. reflexivity.
  - apply emits_read_deck. auto.
Qed.

Lemma bind_starts {A B} (m : M A) (k : A -> M B) h ev :
  (exists o rest, m h = (o, h ++ ev :: rest)) ->
  (forall a, emits (fun _ => True) (k a)) ->
  exists o rest, bind m k h = (o, h ++ ev :: rest).
Proof.
  intros (o & rest & Hm) Hk. unfold bind. rewrite Hm.
  destruct o as [a|e|]; eauto.
  destruct (Hk a (h ++ ev :: rest)) as (evs & Hevs & _).
  destruct (k a _) as [o' h2]. cbn [snd] in Hevs. subst h2.
  exists o', (rest ++ evs). rewrite <- app_assoc. reflexivity.
Qed.

Lemma try_catch_starts {A} (m : M A) handler h ev :
  (exists o rest, m h = (o, h ++ ev :: rest)) ->
  (forall e, emits (fun _ => True) (handler e)) ->
  exists o rest, try_catch m handler h = (o, h ++ ev :: rest).
Proof.
  intros (o & rest & Hm) Hk. unfold try_catch. rewrite Hm.
  destruct o as [a|e|]; eauto.
  destruct (Hk e (h ++ ev :: rest)) as (evs & Hevs & _).
  destruct (handler e _) as [o' h2]. cbn [snd] in Hevs. subst h2.
  exists o', (rest ++ evs). rewrite <- app_assoc. reflexivity.
Qed.

Lemma readResource_starts uri group deckName h :
  match_deck_uri uri = Some group ->
  decodeURIComponent group = Some deckName ->
  exists o rest,
    readResource uri h = (o, h ++ EvRequest (find_request deckName) :: rest).
Proof.
  intros Huri Hdecode. unfold readResource.
  apply try_catch_starts; [|intros; apply emits_throw].
  unfold read_deck. rewrite Huri, Hdecode.
  apply bind_starts; [apply ankiRequest_starts|intros noteIds].
  apply emits_bind; [apply emits_pure|intros len].
  destruct (is_num len 0); [apply emits_ret|].
  apply emits_bind.
  - intros h'. apply fetchNotes_sends. intros; exact I.
  - intros allNotes. apply emits_bind; [apply emits_pure|intros cards].
    apply emits_bind; [apply emits_pure|intros; apply emits_ret].
Qed.

(** X22: the URIs that the deck list hands out lead back to their decks.
    When deckNames returns deck names and [encodeURIComponent] encodes them,
    the list holds one resource per deck, in order, named after the deck,
    with the URI "anki://deck/" followed by the encoded name; and when that
    encoded name is not empty, holds no line terminator and decodes to the
    name, reading the URI queries the notes of exactly that deck. *)
Theorem listed_decks_can_be_read encodeURIComponent (enc : string -> string)
    decks h :
  settle "deckNames" (backend h (mkRequest "deckNames" 6 (VObj [])))
  = Ok (strings decks) ->
  (forall d, In d decks -> encodeURIComponent d = Some (enc d)) ->
  listResources encodeURIComponent h
  = (Ok (map (fun d => mkResource ("anki://deck/" +++ enc d) (VStr d)
                         ("Anki deck: " +++ d)) decks),
     h ++ [EvRequest (mkRequest "deckNames" 6 (VObj []))])
  /\ (forall d h',
        In d decks ->
        enc d <> "" -> one_line (enc d) = true ->
        decodeURIComponent (enc d) = Some d ->
        exists o rest,
          readResource ("anki://deck/" +++ enc d) h'
          = (o, h' ++ EvRequest (find_request d) :: rest)).
Proof.
  intros Hdecks Henc. split.
  - unfold listResources, try_catch.
    rewrite (bind_run _ _ _ _ _ (ankiRequest__ok _ _ _ _ Hdecks)).
    unfold strings, lift.
    assert (Hmap : forall l,
               (forall d, In d l -> encodeURIComponent d = Some (enc d)) ->
               map_outcome
                 (fun deck =>
                    match encodeURIComponent (to_string deck) with
                    | Some encoded =>
                        Ok (mkResource ("anki://deck/" +++ encoded) deck
                              ("Anki deck: " +++ to_string deck))
                    | None => Throw (URIError "URI malformed")
                    end) (map VStr l)
               = Ok (map (fun d => mkResource ("anki://deck/" +++ enc d) (VStr d)
                                     ("Anki deck: " +++ d)) l)).
    { induction l as [|d l IH]; intros Hl; [reflexivity|].
      cbn [map map_outcome to_string].
      rewrite (Hl d (or_introl eq_refl)), IH by (intros; apply Hl; right; assumption).
      reflexivity. }
    rewrite (Hmap decks Henc). reflexivity.
  - intros d h' Hin Hne Hline Hdecode.
    apply (readResource_starts _ (enc d)); [|exact Hdecode].
    apply match_deck_uri_iff. auto.
Qed.

(** X23: when notesInfo describes no note (an empty array) for the note of
    the card, update-cloze-card fails with the raw TypeError of reading
    [modelName] of [undefined]; the two lookups are all that is sent. *)
Theorem update_cloze_card_without_note_info
    args cardId text backExtra tags h noteId more :
  UpdateClozeCardArgumentsSchema args = inr (cardId, text, backExtra, tags) ->
  settle "cardsToNotes" (backend h (cards_request cardId))
  = Ok (VArr (noteId :: more)) ->
  settle "notesInfo"
    (backend (h ++ [EvRequest (cards_request cardId)]) (notes_request [noteId]))
  = Ok (VArr []) ->
  callTool "update-cloze-card" args h
  = (Throw (TypeError "Cannot read properties of undefined (reading 'modelName')"),
     h ++ [EvRequest (cards_request cardId); EvRequest (notes_request [noteId])]).
Proof.
  intros Hargs Hcards Hinfo.
  rewrite callTool_update_cloze_card. unfold try_catch, update_cloze_card.
  rewrite Hargs. cbn [parse]. rewrite bind_ret.
  rewrite (bind_run _ _ _ _ _ (note_of_card_found _ _ _ _ Hcards)).
  unfold notes_request in Hinfo.
  rewrite (bind_run _ _ _ _ _ (ankiRequest__ok _ _ _ _ Hinfo)).
  rewrite <- app_assoc. reflexivity.
Qed.


End Adapter.

(** ** Concrete runs against the sample backends *)



(** C2 at a backend that is not running, with the default parameters. *)
Lemma transport_failures_exhaust_retries_witness :
  1 <= 3
  /\ (forall h,
        transport_failure sample_parse
          (down h (mkRequest "deckNames" 6 (VObj []))) = true)
  /\ ankiRequest sample_parse down "deckNames" (VObj []) 3 1000 []
     = (Throw (Error "connect ECONNREFUSED 127.0.0.1:8765"),
        [EvRequest (mkRequest "deckNames" 6 (VObj []));
         EvSleep 1000;
         EvRequest (mkRequest "deckNames" 6 (VObj []));
         EvSleep 2000;
         EvRequest (mkRequest "deckNames" 6 (VObj []))]).
Proof.
  assert (H1 : 1 <= 3) by (unfold Z.le; cbn; discriminate).
  assert (H2 : forall h,
             transport_failure sample_parse
               (down h (mkRequest "deckNames" 6 (VObj []))) = true)
    by (intros h; reflexivity).
  split; [exact H1|]. split; [exact H2|].
  exact (proj1 (transport_failures_exhaust_retries sample_parse down
                  "deckNames" (VObj []) 3 1000 [] H1 H2)).
Defined.

(** C3 at a backend that answers with neither result nor error: replaceTags
    succeeds at once with the empty object, findNotes fails. *)
Lemma null_result_by_action_witness :
  1 <= 3
  /\ (forall h a, null_result sample_parse (silent h (mkRequest a 6 (VObj []))) = true)
  /\ ankiRequest sample_parse silent "replaceTags" (VObj []) 3 1000 []
     = (Ok (VObj []), [EvRequest (mkRequest "replaceTags" 6 (VObj []))])
  /\ ankiRequest sample_parse silent "findNotes" (VObj []) 3 1000 []
     = (Throw (Error "AnkiConnect returned null/undefined result"),
        [EvRequest (mkRequest "findNotes" 6 (VObj []));
         EvSleep 1000;
         EvRequest (mkRequest "findNotes" 6 (VObj []));
         EvSleep 2000;
         EvRequest (mkRequest "findNotes" 6 (VObj []))]).
Proof.
  assert (H1 : 1 <= 3) by (unfold Z.le; cbn; discriminate).
  assert (H2 : forall h a,
             null_result sample_parse (silent h (mkRequest a 6 (VObj []))) = true)
    by (intros h a; reflexivity).
  split; [exact H1|]. split; [exact H2|]. split.
  - exact (proj1 (proj2 (null_result_by_action sample_parse
                           silent "replaceTags" (VObj []) 3 1000 [] H1
                           (fun h => H2 h "replaceTags")))
             (or_intror eq_refl)).
  - refine (proj2 (proj2 (null_result_by_action sample_parse
                            silent "findNotes" (VObj []) 3 1000 [] H1
                            (fun h => H2 h "findNotes"))) _).
    intros [H|H]; discriminate H.
Defined.



(** C4 at a Cloze note whose note type has no field "Back Extra". *)
Lemma cardInfo_cloze_without_back_extra_witness :
  cardInfo
    (VObj [("noteId", VNum 7);
           ("modelName", VStr "Cloze");
           ("tags", VArr [VStr "geography"]);
           ("fields",
            VObj [("Text",
                   VObj [("value", VStr "Capital of France: {{c1::Paris}}");
                         ("order", VNum 0)])]);
           ("cards", VArr [VNum 70])])
  = Throw (TypeError "Cannot read properties of undefined (reading 'value')").
Proof.
  exact (cardInfo_cloze_without_back_extra
           [("noteId", VNum 7);
            ("modelName", VStr "Cloze");
            ("tags", VArr [VStr "geography"]);
            ("fields",
             VObj [("Text",
                    VObj [("value", VStr "Capital of France: {{c1::Paris}}");
                          ("order", VNum 0)])]);
            ("cards", VArr [VNum 70])]
           [VNum 70]
           [("Text",
             VObj [("value", VStr "Capital of France: {{c1::Paris}}");
                   ("order", VNum 0)])]
           [("value", VStr "Capital of France: {{c1::Paris}}");
            ("order", VNum 0)]
           eq_refl eq_refl eq_refl eq_refl eq_refl).
Defined.

(** C7 at a card whose note has the model "Basic". *)
Lemma update_cloze_card_rejects_other_models_witness :
  callTool sample_parse (anki "Basic") "update-cloze-card"
    (VObj [("cardId", VNum 70);
           ("text", VStr "Capital of France: {{c1::Paris}}");
           ("tags", VArr [VStr "capitals"])]) []
  = (Throw (Error "This card is not a cloze deletion card"),
     [EvRequest (mkRequest "cardsToNotes" 6 (VObj [("cards", VArr [VNum 70])]));
      EvRequest (mkRequest "notesInfo" 6 (VObj [("notes", VArr [VNum 7])]))]).
Proof.
  refine (proj1 (update_cloze_card_rejects_other_models sample_parse
                   (anki "Basic")
                   (VObj [("cardId", VNum 70);
                          ("text", VStr "Capital of France: {{c1::Paris}}");
                          ("tags", VArr [VStr "capitals"])])
                   70
                   (Some "Capital of France: {{c1::Paris}}") None
                   (Some ["capitals"]) []
                   (VNum 7)
                   [EvRequest (mkRequest "cardsToNotes" 6
                                 (VObj [("cards", VArr [VNum 70])]))]
                   (VArr [sample_note "Basic" (VNum 7)])
                   [EvRequest (mkRequest "cardsToNotes" 6
                                 (VObj [("cards", VArr [VNum 70])]));
                    EvRequest (mkRequest "notesInfo" 6
                                 (VObj [("notes", VArr [VNum 7])]))]
                   (sample_note "Basic" (VNum 7)) (VStr "Basic")
                   eq_refl eq_refl eq_refl eq_refl eq_refl _)).
  discriminate.
Defined.

(** C9 at a create-cloze-card call with extra text for the back. *)
Lemma create_cloze_card_field_names_witness :
  exists r rest,
    snd (callTool sample_parse (anki "Cloze") "create-cloze-card"
           (VObj [("deckName", VStr "Geography");
                  ("text", VStr "Capital of France: {{c1::Paris}}");
                  ("backExtra", VStr "On the Seine")]) [])
    = [] ++ EvRequest r :: rest
    /\ action r = "addNote"
    /\ map fst (written_fields r) = ["Text"; "Back"]
    /\ has_key "Back Extra" (written_fields r) = false
    /\ lookup "Back" (written_fields r) = VStr "On the Seine"
    /\ forall b, map fst (back_extra_field (Some b)) = ["Back Extra"].
Proof.
  exact (create_cloze_card_field_names sample_parse (anki "Cloze")
           (VObj [("deckName", VStr "Geography");
                  ("text", VStr "Capital of France: {{c1::Paris}}");
                  ("backExtra", VStr "On the Seine")])
           "Geography" "Capital of France: {{c1::Paris}}"
           (Some "On the Seine") None [] eq_refl eq_refl).
Defined.

(** The claim C6 as it is written fails on the code: update-cloze-card
    validates the text only after its two lookups have gone out, and an
    empty text, which has no cloze marker either, is not rejected at all. *)
Lemma update_cloze_card_validates_after_lookups :
  has_cloze "Capital of France: Paris" = false
  /\ callTool sample_parse (anki "Cloze") "update-cloze-card"
       (VObj [("cardId", VNum 70); ("text", VStr "Capital of France: Paris")]) []
     = (Throw cloze_error,
        [EvRequest (mkRequest "cardsToNotes" 6 (VObj [("cards", VArr [VNum 70])]));
         EvRequest (mkRequest "notesInfo" 6 (VObj [("notes", VArr [VNum 7])]))])
  /\ has_cloze "" = false
  /\ callTool sample_parse (anki "Cloze") "update-cloze-card"
       (VObj [("cardId", VNum 70); ("text", VStr "")]) []
     = (Ok "Successfully updated cloze card 70",
        [EvRequest (mkRequest "cardsToNotes" 6 (VObj [("cards", VArr [VNum 70])]));
         EvRequest (mkRequest "notesInfo" 6 (VObj [("notes", VArr [VNum 7])]))]).
Proof. repeat split. Qed.

(** C6 at the texts of the specification: "Capital of France: Paris" is
    rejected by create-cloze-card before anything is sent and by
    update-cloze-card after the two lookups; "Capital of France:
    {{c1::Paris}}" passes and the note is sent. *)
Lemma cloze_text_validation_witness :
  callTool sample_parse (anki "Cloze") "create-cloze-card"
    (VObj [("deckName", VStr "Geography");
           ("text", VStr "Capital of France: Paris")]) []
  = (Throw cloze_error, [])
  /\ callTool sample_parse (anki "Cloze") "update-cloze-card"
       (VObj [("cardId", VNum 70); ("text", VStr "Capital of France: Paris")]) []
     = (Throw cloze_error,
        [EvRequest (mkRequest "cardsToNotes" 6 (VObj [("cards", VArr [VNum 70])]));
         EvRequest (mkRequest "notesInfo" 6 (VObj [("notes", VArr [VNum 7])]))])
  /\ exists rest,
       snd (callTool sample_parse (anki "Cloze") "create-cloze-card"
              (VObj [("deckName", VStr "Geography");
                     ("text", VStr "Capital of France: {{c1::Paris}}")]) [])
       = [] ++ EvRequest
                 (cloze_note_request "Geography"
                    "Capital of France: {{c1::Paris}}" None None) :: rest.
Proof.
  destruct (cloze_text_validation sample_parse (anki "Cloze"))
    as (Hcreate & _ & Hupdate & Hsend & _).
  split; [|split].
  - exact (Hcreate
             (VObj [("deckName", VStr "Geography");
                    ("text", VStr "Capital of France: Paris")])
             "Geography" "Capital of France: Paris" None None []
             eq_refl eq_refl).
  - refine (Hupdate
              (VObj [("cardId", VNum 70);
                     ("text", VStr "Capital of France: Paris")])
              70 "Capital of France: Paris" None None []
              (VNum 7)
              [EvRequest (mkRequest "cardsToNotes" 6
                            (VObj [("cards", VArr [VNum 70])]))]
              (VArr [sample_note "Cloze" (VNum 7)])
              [EvRequest (mkRequest "cardsToNotes" 6
                            (VObj [("cards", VArr [VNum 70])]));
               EvRequest (mkRequest "notesInfo" 6
                            (VObj [("notes", VArr [VNum 7])]))]
              (sample_note "Cloze" (VNum 7))
              eq_refl _ eq_refl eq_refl eq_refl eq_refl eq_refl).
    discriminate.
  - exact (Hsend
             (VObj [("deckName", VStr "Geography");
                    ("text", VStr "Capital of France: {{c1::Paris}}")])
             "Geography" "Capital of France: {{c1::Paris}}" None None []
             eq_refl eq_refl).
Defined.

(** C10 at calls whose front or text is the empty string. *)
Lemma empty_arguments_are_skipped_witness :
  requests_of "updateNoteFields"
    (snd (callTool sample_parse (anki "Basic") "update-card"
            (VObj [("cardId", VNum 70); ("front", VStr ""); ("back", VStr "")])
            []))
  = []
  /\ (forall r,
        In r (requests_of "updateNoteFields"
                (snd (callTool sample_parse (anki "Basic") "update-card"
                        (VObj [("cardId", VNum 70); ("front", VStr "");
                               ("back", VStr "Paris")]) []))) ->
        has_key "Front" (written_fields r) = false
        /\ lookup "Back" (written_fields r) <> VStr "")
  /\ requests_of "updateNoteFields"
       (snd (callTool sample_parse (anki "Cloze") "update-cloze-card"
               (VObj [("cardId", VNum 70); ("text", VStr "")]) []))
     = [].
Proof.
  split; [|split].
  - destruct (proj1 (empty_arguments_are_skipped sample_parse (anki "Basic"))
                (VObj [("cardId", VNum 70); ("front", VStr "");
                       ("back", VStr "")])
                70 (Some "") (Some "") None [] eq_refl)
      as (evs & Hevs & _ & Hnone).
    cbn [app] in Hevs. rewrite Hevs.
    apply Hnone; right; reflexivity.
  - destruct (proj1 (empty_arguments_are_skipped sample_parse (anki "Basic"))
                (VObj [("cardId", VNum 70); ("front", VStr "");
                       ("back", VStr "Paris")])
                70 (Some "") (Some "Paris") None [] eq_refl)
      as (evs & Hevs & Hall & _).
    cbn [app] in Hevs. rewrite Hevs. intros r Hin.
    destruct (Hall r Hin) as (Hfront & _ & _ & Hback).
    split; [apply Hfront; right; reflexivity|exact Hback].
  - destruct (proj2 (empty_arguments_are_skipped sample_parse (anki "Cloze"))
                (VObj [("cardId", VNum 70); ("text", VStr "")])
                70 (Some "") None None [] eq_refl)
      as (evs & Hevs & _ & Hnone).
    cbn [app] in Hevs. rewrite Hevs.
    apply Hnone; [right|left]; reflexivity.
Defined.

(** C8 at a deck of twelve notes: three requests, of 5, 5 and 2 ids. *)
Lemma notes_fetched_in_batches_of_five_witness :
  (forall h j,
      settle sample_parse "notesInfo"
        (anki "Basic" h (notes_request (batch twelve j)))
      = Ok (VArr (map (sample_note "Basic") (batch twelve j))))
  /\ fetchNotes sample_parse (anki "Basic") (VArr twelve) (VNum 12) 0 [] []
     = (Ok (map (sample_note "Basic") twelve),
        [EvRequest (notes_request (map VNum [101; 102; 103; 104; 105]));
         EvRequest (notes_request (map VNum [106; 107; 108; 109; 110]));
         EvRequest (notes_request (map VNum [111; 112]))])
  /\ map (@List.length value) (batches twelve) = [5; 5; 2]%nat
  /\ List.length (map (sample_note "Basic") twelve) = 12%nat
  /\ snd (readResource sample_parse (fun s => Some s) (anki "Basic")
            "anki://deck/Geography" [])
     = [EvRequest (find_request "Geography");
        EvRequest (notes_request (map VNum [101; 102; 103; 104; 105]));
        EvRequest (notes_request (map VNum [106; 107; 108; 109; 110]));
        EvRequest (notes_request (map VNum [111; 112]))].
Proof.
  assert (Hback : forall h j,
             settle sample_parse "notesInfo"
               (anki "Basic" h (notes_request (batch twelve j)))
             = Ok (VArr (map (sample_note "Basic") (batch twelve j)))).
  { intros h [|[|[|j]]]; try reflexivity.
    assert (E : batch twelve (S (S (S j))) = []).
    { unfold batch. rewrite skipn_all2; [reflexivity|].
      change (List.length twelve) with 12%nat. lia. }
    rewrite E. reflexivity. }
  split; [exact Hback|].
  destruct (notes_fetched_in_batches_of_five sample_parse (fun s => Some s)
              (anki "Basic") (sample_note "Basic") twelve [] Hback)
    as (_ & Hrun & _ & Hsizes & _ & Hlen & _ & Hread).
  split; [exact Hrun|]. split; [exact Hsizes|]. split; [exact Hlen|].
  exact (Hread "anki://deck/Geography" "Geography" "Geography"
           eq_refl eq_refl eq_refl).
Defined.

(** ** Concrete runs of the further properties *)

(** X2 at a backend that refuses two connections and then answers. *)
Lemma ankiRequest_recovers_witness :
  ankiRequest sample_parse flaky "cardsToNotes"
    (VObj [("cards", VArr [VNum 70])]) 3 1000 []
  = (Ok (VArr [VNum 7]),
     [EvRequest (cards_request 70); EvSleep 1000;
      EvRequest (cards_request 70); EvSleep 2000;
      EvRequest (cards_request 70)]).
Proof.
  refine (ankiRequest_recovers sample_parse flaky "cardsToNotes"
            (VObj [("cards", VArr [VNum 70])]) 3 1000 2 [] (VArr [VNum 7])
            _ _ eq_refl).
  - reflexivity.
  - intros [|[|j]] Hj; [eexists; reflexivity|eexists; reflexivity|].
    exfalso. revert Hj. apply Nat.nlt_ge. do 2 apply le_n_S. apply Nat.le_0_l.
Defined.

(** X3 at [retries = 0]. *)
Lemma ankiRequest_no_attempts_witness :
  ankiRequest sample_parse (anki "Basic") "deckNames" (VObj []) 0 1000 []
  = (Throw (Error "Failed after 0 attempts"), []).
Proof.
  refine (ankiRequest_no_attempts sample_parse (anki "Basic") "deckNames"
            (VObj []) 0 1000 [] _).
  unfold Z.le. cbn. discriminate.
Defined.

(** X4 at a null result of replaceTags. *)
Lemma ankiRequest_result_not_null_witness :
  fst (ankiRequest sample_parse silent "replaceTags" (VObj []) 3 1000 [])
  = Ok (VObj [])
  /\ nullish (VObj []) = false.
Proof.
  split; [reflexivity|].
  exact (proj1 (ankiRequest_result_not_null sample_parse silent "replaceTags"
                  (VObj []) 3 1000 [] (VObj []) eq_refl)).
Defined.

(** X5 at a backend whose body is [null]. *)
Lemma null_body_is_a_parse_failure_witness :
  wider_parse "null" = Some VNull
  /\ ankiRequest wider_parse void "deckNames" (VObj []) 3 1000 []
     = (Throw (Error "Failed to parse AnkiConnect response: null"),
        [EvRequest (mkRequest "deckNames" 6 (VObj [])); EvSleep 1000;
         EvRequest (mkRequest "deckNames" 6 (VObj [])); EvSleep 2000;
         EvRequest (mkRequest "deckNames" 6 (VObj []))]).
Proof.
  split; [reflexivity|].
  refine (proj2 (null_body_is_a_parse_failure wider_parse void "deckNames"
                   (VObj []) 3 1000 [] "null" _ eq_refl (fun _ => eq_refl))).
  unfold Z.le. cbn. discriminate.
Defined.

(** X6 at a create-cloze-card call with a number for the text and for a
    tag. *)
Lemma invalid_arguments_send_nothing_witness :
  callTool sample_parse (anki "Cloze") "create-cloze-card"
    (VObj [("deckName", VStr "Geography"); ("text", VNum 5);
           ("tags", VArr [VNum 1])]) []
  = (Throw (Error "Invalid arguments: text: Expected string, received number, tags.0: Expected string, received number"),
     []).
Proof.
  refine (invalid_arguments_send_nothing sample_parse (anki "Cloze")
            "create-cloze-card"
            (VObj [("deckName", VStr "Geography"); ("text", VNum 5);
                   ("tags", VArr [VNum 1])]) [] _).
  cbn. discriminate.
Defined.

(** X7 at create-card without its front. *)
Lemma required_keys_are_enforced_witness :
  callTool sample_parse (anki "Basic") "create-card"
    (VObj [("deckName", VStr "Geography"); ("back", VStr "Paris")]) []
  = (Throw (Error "Invalid arguments: front: Required"), []).
Proof.
  refine (proj2 (proj1 (required_keys_are_enforced sample_parse (anki "Basic")
                          (mkTool "create-card"
                             "Create a new flashcard in a specified deck"
                             [mkProperty "deckName" "string" None
                                "Name of the deck to add the card to";
                              mkProperty "front" "string" None
                                "Front side content of the card";
                              mkProperty "back" "string" None
                                "Back side content of the card";
                              mkProperty "tags" "array" (Some "string")
                                "Optional tags for the card"]
                             ["deckName"; "front"; "back"])
                          [] _)
                   "front"
                   [("deckName", VStr "Geography"); ("back", VStr "Paris")]
                   _ eq_refl)).
  - right. left. reflexivity.
  - right. left. reflexivity.
Defined.

(** X8 at "list-decks", for which the source has a schema and no tool. *)
Lemma unknown_tool_sends_nothing_witness :
  callTool sample_parse (anki "Basic") "list-decks" (VObj []) []
  = (Throw (Error "Unknown tool: list-decks"), []).
Proof.
  refine (unknown_tool_sends_nothing sample_parse (anki "Basic")
            "list-decks" (VObj []) [] _).
  cbn. intros H.
  repeat (destruct H as [H|H]; [discriminate H|]). exact H.
Defined.

(** X9 at a backend that knows no card. *)
Lemma card_without_note_is_not_updated_witness :
  callTool wider_parse cardless "update-card"
    (VObj [("cardId", VNum 70); ("front", VStr "Capital of Italy")]) []
  = (Throw (Error "No note found for card 70"), [EvRequest (cards_request 70)])
  /\ callTool wider_parse cardless "update-cloze-card"
       (VObj [("cardId", VNum 70); ("text", VStr "{{c1::Rome}}")]) []
     = (Throw (Error "No note found for card 70"), [EvRequest (cards_request 70)])
  /\ callTool wider_parse cardless "update-card"
       (VObj [("cardId", VNum 9223372036854775808)]) []
     = (Throw (Error "No note found for card 9223372036854776000"),
        [EvRequest (cards_request 9223372036854775808)]).
Proof.
  destruct (card_without_note_is_not_updated wider_parse cardless)
    as (Hcard & Hcloze).
  split; [|split].
  - exact (proj1 (Hcard
                    (VObj [("cardId", VNum 70); ("front", VStr "Capital of Italy")])
                    70 (Some "Capital of Italy") None None []
                    [EvRequest (cards_request 70)] eq_refl eq_refl)).
  - exact (proj1 (Hcloze
                    (VObj [("cardId", VNum 70); ("text", VStr "{{c1::Rome}}")])
                    70 (Some "{{c1::Rome}}") None None []
                    [EvRequest (cards_request 70)] eq_refl eq_refl)).
  - exact (proj1 (Hcard
                    (VObj [("cardId", VNum 9223372036854775808)])
                    9223372036854775808 None None None []
                    [EvRequest (cards_request 9223372036854775808)]
                    eq_refl eq_refl)).
Defined.

(** X10 at an update of the back and of the tags, the tags emptied. *)
Lemma update_card_sends_fields_then_tags_witness :
  callTool sample_parse (anki "Basic") "update-card"
    (VObj [("cardId", VNum 70); ("front", VStr ""); ("back", VStr "Rome");
           ("tags", VArr [])]) []
  = (Ok "Successfully updated card 70",
     [EvRequest (cards_request 70);
      EvRequest (fields_request (VNum 7) [("Back", VStr "Rome")]);
      EvRequest (mkRequest "replaceTags" 6
                   (VObj [("notes", VArr [VNum 7]); ("tags", VStr "")]))])
  /\ callTool sample_parse (anki "Basic") "update-card"
       (VObj [("cardId", VNum 9223372036854775808); ("back", VStr "Rome")]) []
     = (Ok "Successfully updated card 9223372036854776000",
        [EvRequest (cards_request 9223372036854775808);
         EvRequest (fields_request (VNum 7) [("Back", VStr "Rome")])]).
Proof.
  assert (Hwrite : forall h' r,
             action r = "updateNoteFields" \/ action r = "replaceTags" ->
             exists v, settle sample_parse (action r) (anki "Basic" h' r) = Ok v).
  { intros h' [a v p] [E|E]; cbn in E; subst a; exists (VObj []); reflexivity. }
  split.
  - exact (update_card_sends_fields_then_tags sample_parse (anki "Basic")
             (VObj [("cardId", VNum 70); ("front", VStr ""); ("back", VStr "Rome");
                    ("tags", VArr [])])
             70 (Some "") (Some "Rome") (Some []) [] (VNum 7) []
             eq_refl (fun _ => eq_refl) Hwrite).
  - exact (update_card_sends_fields_then_tags sample_parse (anki "Basic")
             (VObj [("cardId", VNum 9223372036854775808); ("back", VStr "Rome")])
             9223372036854775808 None (Some "Rome") None [] (VNum 7) []
             eq_refl (fun _ => eq_refl) Hwrite).
Defined.

(** X11 at a backend that accepts the fields and rejects the tags. *)
Lemma update_card_is_not_atomic_witness :
  callTool sample_parse halfway "update-card"
    (VObj [("cardId", VNum 70); ("back", VStr "Rome");
           ("tags", VArr [VStr "capitals"])]) []
  = (Throw (Error "AnkiConnect error: unsupported action"),
     [EvRequest (cards_request 70);
      EvRequest (fields_request (VNum 7) [("Back", VStr "Rome")]);
      EvRequest (tags_request (VNum 7) ["capitals"]);
      EvSleep 1000;
      EvRequest (tags_request (VNum 7) ["capitals"]);
      EvSleep 2000;
      EvRequest (tags_request (VNum 7) ["capitals"])]).
Proof.
  refine (update_card_is_not_atomic sample_parse halfway
            (VObj [("cardId", VNum 70); ("back", VStr "Rome");
                   ("tags", VArr [VStr "capitals"])])
            70 None (Some "Rome") ["capitals"] [] (VNum 7) []
            (fun _ => "AnkiConnect error: unsupported action")
            eq_refl eq_refl (fun _ => eq_refl) _ (fun _ => eq_refl)).
  intros h' fields. exists (VObj []). reflexivity.
Defined.

(** X13 at an update that gives a new text and empties the extra. *)
Lemma update_cloze_card_sends_fields_then_tags_witness :
  callTool sample_parse (anki "Cloze") "update-cloze-card"
    (VObj [("cardId", VNum 70); ("text", VStr "{{c1::Rome}}");
           ("backExtra", VStr "")]) []
  = (Ok "Successfully updated cloze card 70",
     [EvRequest (cards_request 70);
      EvRequest (notes_request [VNum 7]);
      EvRequest (fields_request (VNum 7)
                   [("Text", VStr "{{c1::Rome}}"); ("Back Extra", VStr "")])])
  /\ callTool sample_parse (anki "Cloze") "update-cloze-card"
       (VObj [("cardId", VNum 9223372036854775808);
              ("tags", VArr [VStr "capitals"])]) []
     = (Ok "Successfully updated cloze card 9223372036854776000",
        [EvRequest (cards_request 9223372036854775808);
         EvRequest (notes_request [VNum 7]);
         EvRequest (tags_request (VNum 7) ["capitals"])]).
Proof.
  assert (Hwrite : forall h' r,
             action r = "updateNoteFields" \/ action r = "replaceTags" ->
             exists v, settle sample_parse (action r) (anki "Cloze" h' r) = Ok v).
  { intros h' [a v p] [E|E]; cbn in E; subst a; exists (VObj []); reflexivity. }
  split.
  - refine (update_cloze_card_sends_fields_then_tags sample_parse (anki "Cloze")
              (VObj [("cardId", VNum 70); ("text", VStr "{{c1::Rome}}");
                     ("backExtra", VStr "")])
              70 (Some "{{c1::Rome}}") (Some "") None [] (VNum 7) []
              (sample_note "Cloze" (VNum 7)) []
              eq_refl _ (fun _ => eq_refl) (fun _ => eq_refl) eq_refl Hwrite).
    intros t [= <-] _. reflexivity.
  - refine (update_cloze_card_sends_fields_then_tags sample_parse (anki "Cloze")
              (VObj [("cardId", VNum 9223372036854775808);
                     ("tags", VArr [VStr "capitals"])])
              9223372036854775808 None None (Some ["capitals"]) [] (VNum 7) []
              (sample_note "Cloze" (VNum 7)) []
              eq_refl _ (fun _ => eq_refl) (fun _ => eq_refl) eq_refl Hwrite).
    intros t [=].
Defined.

(** X14 at a card with an empty front. *)
Lemma create_card_sends_basic_note_witness :
  callTool sample_parse (anki "Basic") "create-card"
    (VObj [("deckName", VStr "Geography"); ("front", VStr "");
           ("back", VStr "Paris")]) []
  = (Ok ("Successfully created new card in deck " +++ dq +++ "Geography" +++ dq),
     [EvRequest (basic_note_request "Geography" "" "Paris" None)]).
Proof.
  exact (proj2 (create_card_sends_basic_note sample_parse (anki "Basic")
                  (VObj [("deckName", VStr "Geography"); ("front", VStr "");
                         ("back", VStr "Paris")])
                  "Geography" "" "Paris" None [] eq_refl)
           (VNum 1496198395707) eq_refl).
Defined.

(** X18 at a backend whose decks are empty. *)
Lemma empty_deck_is_reported_witness :
  readResource wider_parse (fun s => Some s) cardless "anki://deck/Default" []
  = (Ok ("Deck: Default" +++ nl +++ nl +++ "No notes found in this deck."),
     [EvRequest (find_request "Default")]).
Proof.
  exact (empty_deck_is_reported wider_parse (fun s => Some s) cardless
           "anki://deck/Default" "Default" "Default" []
           eq_refl eq_refl eq_refl).
Defined.

(** X19 at a deck of three notes: the first is projected, the second has
    vanished ([notesInfo] describes it as the empty object, which has no card
    list) and decides the error; the third, which cannot be projected
    either, is not reached. *)
Lemma one_bad_note_fails_the_listing_witness :
  readResource thin_parse (fun s => Some s) thinning "anki://deck/Default" []
  = (Throw (Error ("Failed to read deck: "
                   +++ "Cannot read properties of undefined (reading '0')"
                   +++ ". Make sure Anki is running and AnkiConnect plugin is installed.")),
     [EvRequest (find_request "Default");
      EvRequest (notes_request [VNum 101; VNum 102; VNum 103])]).
Proof.
  refine (one_bad_note_fails_the_listing thin_parse (fun s => Some s) thinning
            thinned [VNum 101; VNum 102; VNum 103]
            "anki://deck/Default" "Default" "Default" []
            [thinned (VNum 101)] (thinned (VNum 102)) [thinned (VNum 103)]
            (TypeError "Cannot read properties of undefined (reading '0')")
            _ eq_refl eq_refl eq_refl eq_refl _ eq_refl).
  - intros h' [|j]; [reflexivity|].
    assert (E : batch [VNum 101; VNum 102; VNum 103] (S j) = []).
    { unfold batch. rewrite skipn_all2; [reflexivity|]. cbn. lia. }
    rewrite E. reflexivity.
  - intros n [<-|[]]. eexists. reflexivity.
Defined.


(** X22 at a backend with the decks "Default" and "Geography" and names that
    need no encoding. *)
Lemma listed_decks_can_be_read_witness :
  listResources wider_parse shelves (fun s => Some s) []
  = (Ok [mkResource "anki://deck/Default" (VStr "Default") "Anki deck: Default";
         mkResource "anki://deck/Geography" (VStr "Geography")
           "Anki deck: Geography"],
     [EvRequest (mkRequest "deckNames" 6 (VObj []))])
  /\ exists o rest,
       readResource wider_parse (fun s => Some s) shelves
         "anki://deck/Geography" []
       = (o, [] ++ EvRequest (find_request "Geography") :: rest).
Proof.
  destruct (listed_decks_can_be_read wider_parse (fun s => Some s) shelves
              (fun s => Some s) (fun s => s) ["Default"; "Geography"] []
              eq_refl (fun _ _ => eq_refl))
    as (Hlist & Hread).
  split; [exact Hlist|].
  refine (Hread "Geography" [] _ _ eq_refl eq_refl).
  - right. left. reflexivity.
  - discriminate.
Defined.

(** X23 at a backend that finds the note and then cannot describe it. *)
Lemma update_cloze_card_without_note_info_witness :
  callTool wider_parse forgetful "update-cloze-card"
    (VObj [("cardId", VNum 70); ("text", VStr "{{c1::Rome}}")]) []
  = (Throw (TypeError "Cannot read properties of undefined (reading 'modelName')"),
     [EvRequest (cards_request 70); EvRequest (notes_request [VNum 7])]).
Proof.
  exact (update_cloze_card_without_note_info wider_parse forgetful
           (VObj [("cardId", VNum 70); ("text", VStr "{{c1::Rome}}")])
           70 (Some "{{c1::Rome}}") None None [] (VNum 7) []
           eq_refl eq_refl eq_refl).
Defined.

